(** * gpsd.py: reconciling the UART device-tree overlay

    A shallow embedding of [find_dtoverlay_config] and [control_uart] of
    [software/gpsd/gpsd.py].  Python sets of strings are finite sets
    [gset string]; exceptions are an explicit result type; the calls on the
    Balena client and the lines printed are recorded in a world that is
    threaded through [control_uart]. *)

From Stdlib Require Import Ascii.
From stdpp Require Import gmap strings list pretty.

(** ** Characters and strings *)

(** The double quote, by its code: U+0022. *)
Definition dquote : ascii := "034"%char.
Definition backslash : ascii := "092"%char.

(** [UART_OVERLAY = "disable-bt"] (line 25). *)
Definition UART_OVERLAY : string := "disable-bt".

(** [s.startswith(p)] *)
Fixpoint startswith (p s : string) : bool :=
  match p, s with
  | EmptyString, _ => true
  | String a p', String b s' => if decide (a = b) then startswith p' s' else false
  | String _ _, EmptyString => false
  end.

(** The last character of a string, if it has one. *)
Fixpoint last_char (s : string) : option ascii :=
  match s with
  | EmptyString => None
  | String c EmptyString => Some c
  | String _ s' => last_char s'
  end.

(** [s.endswith(c)] for a one-character suffix [c]. *)
Definition endswith_char (c : ascii) (s : string) : bool :=
  bool_decide (last_char s = Some c).

(** [sep.join(l)] *)
Fixpoint join (sep : string) (l : list string) : string :=
  match l with
  | [] => EmptyString
  | [x] => x
  | x :: l' => x +:+ sep +:+ join sep l'
  end.

(** [c.lower()] on ASCII letters, and [s.lower()]. *)
Definition lower_ascii (c : ascii) : ascii :=
  let n := Ascii.N_of_ascii c in
  if ((65 <=? n) && (n <=? 90))%N then Ascii.ascii_of_N (n + 32) else c.

Fixpoint lower (s : string) : string :=
  match s with
  | EmptyString => EmptyString
  | String c s' => String (lower_ascii c) (lower s')
  end.

(** The f-string ["{dt_overlay}"] with its two literal quotes (line 158). *)
Definition quoted (tok : string) : string :=
  String dquote (tok +:+ String dquote EmptyString).

(** Truthiness of a Python string: it is not empty. *)
Definition truthy (s : string) : bool :=
  match s with EmptyString => false | String _ _ => true end.

(** ** Exceptions *)

(** The exceptions the modelled code can raise.  [ValueError] is the one of
    line 122, with its message.  [JSONDecodeError] is what [json.loads] raises
    on malformed text; Python makes it a subclass of [ValueError], and it is
    kept apart here from the error of line 122.  [Unmodelled] is no Python
    exception: it marks a value that leaves the fragment of JSON this
    development models (see [json_loads_list]). *)
Inductive exception : Type :=
  | ValueError (msg : string)
  | TypeError
  | JSONDecodeError
  | Unmodelled.

Inductive result (A : Type) : Type :=
  | Return (a : A)
  | Raise (e : exception).
Arguments Return {A} a.
Arguments Raise {A} e.

#[global] Instance result_ret : MRet result := @Return.
#[global] Instance result_bind : MBind result := λ A B f r,
  match r with
  | Return a => f a
  | Raise e => Raise e
  end.

#[global] Instance exception_eq_dec : EqDecision exception.
Proof. solve_decision. Defined.

(** ** [json.loads("[" + value + "]")]

    The JSON decoder of the Python standard library, on the text of an array,
    for arrays whose elements are string literals.  The decoder is run as an
    automaton over the characters that follow the opening bracket.  Strings
    are decoded as the strict decoder does: a control character is refused,
    the two-character escapes are replaced.  White space is blank, tab, line
    feed and carriage return.  An element that starts as a number, a literal
    ([true], [false], [null], [NaN], [Infinity]), an array or an object, and
    a [\u] escape, leave the modelled fragment: [Unmodelled]. *)

Inductive json_state : Type :=
  | ExpectValue (first : bool)   (* after the bracket, or after a comma *)
  | InString (acc : string)      (* inside a literal; [acc] is reversed *)
  | InEscape (acc : string)      (* after a backslash inside a literal *)
  | AfterValue                   (* after an element *)
  | AfterArray.                  (* after the closing bracket *)

Definition is_json_ws (c : ascii) : bool :=
  bool_decide (c ∈ [" "%char; "009"%char; "010"%char; "013"%char]).

(** The character a two-character escape stands for. *)
Definition json_unescape (c : ascii) : option ascii :=
  if decide (c = dquote) then Some dquote
  else if decide (c = backslash) then Some backslash
  else if decide (c = "/"%char) then Some "/"%char
  else if decide (c = "b"%char) then Some "008"%char
  else if decide (c = "f"%char) then Some "012"%char
  else if decide (c = "n"%char) then Some "010"%char
  else if decide (c = "r"%char) then Some "013"%char
  else if decide (c = "t"%char) then Some "009"%char
  else None.

(** First characters of the JSON values that are not string literals. *)
Definition starts_other_value (c : ascii) : bool :=
  let n := Ascii.N_of_ascii c in
  bool_decide (c ∈ ["{"%char; "["%char; "n"%char; "t"%char; "f"%char;
                    "N"%char; "I"%char; "-"%char])
  || ((48 <=? n) && (n <=? 57))%N.

(** The automaton: [seen] holds the elements read so far, last first. *)
Fixpoint json_array_run (st : json_state) (seen : list string) (s : string)
  : result (list string) :=
  match s with
  | EmptyString =>
      match st with
      | AfterArray => Return (reverse seen)
      | _ => Raise JSONDecodeError
      end
  | String c s' =>
      match st with
      | ExpectValue first =>
          if is_json_ws c then json_array_run (ExpectValue first) seen s'
          else if decide (c = dquote) then json_array_run (InString EmptyString) seen s'
          else if first && bool_decide (c = "]"%char) then json_array_run AfterArray seen s'
          else if starts_other_value c then Raise Unmodelled
          else Raise JSONDecodeError
      | InString acc =>
          if decide (c = dquote) then json_array_run AfterValue (String.rev acc :: seen) s'
          else if decide (c = backslash) then json_array_run (InEscape acc) seen s'
          else if (Ascii.N_of_ascii c <? 32)%N then Raise JSONDecodeError
          else json_array_run (InString (String c acc)) seen s'
      | InEscape acc =>
          match json_unescape c with
          | Some c' => json_array_run (InString (String c' acc)) seen s'
          | None => if decide (c = "u"%char) then Raise Unmodelled
                    else Raise JSONDecodeError
          end
      | AfterValue =>
          if is_json_ws c then json_array_run AfterValue seen s'
          else if decide (c = ","%char) then json_array_run (ExpectValue false) seen s'
          else if decide (c = "]"%char) then json_array_run AfterArray seen s'
          else Raise JSONDecodeError
      | AfterArray =>
          if is_json_ws c then json_array_run AfterArray seen s'
          else Raise JSONDecodeError
      end
  end.

(** [json.loads("[" + value + "]")] *)
Definition json_loads_list (value : string) : result (list string) :=
  json_array_run (ExpectValue true) [] (value +:+ "]").

(** ** [find_dtoverlay_config] (lines 92-109) *)

(** One entry of the list the Balena client returns: a dictionary with the
    keys [id], [name] and [value]. *)
Record variable : Type := {
  var_id : N;
  var_name : string;
  var_value : string
}.

(** Lines 104-107: the overlays a variable's value stands for. *)
Definition parse_dtoverlay_value (value : string) : result (gset string) :=
  if startswith (String dquote EmptyString) value && endswith_char dquote value
  then l ← json_loads_list value; mret (list_to_set l)
  else mret {[ value ]}.

Definition is_dtoverlay_name (name : string) : bool :=
  bool_decide (name ∈ ["BALENA_HOST_CONFIG_dtoverlay"; "RESIN_HOST_CONFIG_dtoverlay"]).

(** The loop of lines 100-107, from the values the two locals hold. *)
Fixpoint find_dtoverlay_loop (variable_list : list variable)
    (current_dt_overlay : option (gset string)) (dt_overlay_var_id : option string)
  : result (option (gset string) * option string) :=
  match variable_list with
  | [] => mret (current_dt_overlay, dt_overlay_var_id)
  | v :: rest =>
      if is_dtoverlay_name (var_name v) then
        let dt_overlay_var_id := Some (pretty (var_id v)) in
        s ← parse_dtoverlay_value (var_value v);
        find_dtoverlay_loop rest (Some s) dt_overlay_var_id
      else find_dtoverlay_loop rest current_dt_overlay dt_overlay_var_id
  end.

Definition find_dtoverlay_config (variable_list : list variable)
  : result (option (gset string) * option string) :=
  find_dtoverlay_loop variable_list None None.

(** ** The world [control_uart] runs in *)

(** The environment variables the function reads; [os.getenv] gives [None]
    for one that is not set. *)
Record environ : Type := {
  BALENA_API_KEY : option string;
  BALENA_DEVICE_UUID : option string;
  BALENA_APP_ID : option string
}.

(** The remote configuration service, as far as this device sees it: the
    variables of the device and those of its application (the fleet). *)
Record remote : Type := {
  device_vars : list variable;
  application_vars : list variable
}.

(** The calls on the Balena client.  The two writes on the application scope
    are part of the client's interface; [control_uart] has no call of them. *)
Inductive call : Type :=
  | login_with_token (token : option string)
  | device_get_all (uuid : option string)
  | application_get_all (app_id : option string)
  | device_update (var_id : option string) (value : string)
  | device_create (uuid : option string) (name value : string)
  | application_update (var_id : option string) (value : string)
  | application_create (app_id : option string) (name value : string).

#[global] Instance call_eq_dec : EqDecision call.
Proof. solve_decision. Defined.

Definition is_write (c : call) : bool :=
  match c with
  | device_update _ _ | device_create _ _ _
  | application_update _ _ | application_create _ _ _ => true
  | _ => false
  end.

Definition is_application_write (c : call) : bool :=
  match c with
  | application_update _ _ | application_create _ _ _ => true
  | _ => false
  end.

(** The lines [control_uart] prints, by what they say. *)
Inductive message : Type :=
  | msg_device_dt_overlay (s : option (gset string))  (* line 133 *)
  | msg_fleet_dt_overlay (s : option (gset string))   (* line 138 *)
  | msg_no_update_needed                              (* line 155 *)
  | msg_updated (dt_overlay_string : string)          (* line 162 *)
  | msg_created (dt_overlay_string : string)          (* line 166 *)
  | msg_uart0 (control : string).                     (* line 168 *)

#[global] Instance message_eq_dec : EqDecision message.
Proof. solve_decision. Defined.

Record world : Type := {
  env : environ;
  cloud : remote;
  calls : list call;     (* the calls made so far, oldest first *)
  stdout : list message  (* the lines printed so far, oldest first *)
}.

(** An identifier no variable of the service has yet. *)
Definition fresh_id (r : remote) : N :=
  N.succ (foldr N.max 0%N (var_id <$> (device_vars r ++ application_vars r))).

(** [v] with its value replaced when its identifier, printed, is [id]. *)
Definition set_value (id : option string) (value : string) (v : variable) : variable :=
  if decide (Some (pretty (var_id v)) = id)
  then {| var_id := var_id v; var_name := var_name v; var_value := value |}
  else v.

(** What a write does to the service.  An update sets the value of the
    variable with the given identifier; a create adds a variable under a
    fresh identifier.  The Balena service is no part of the repository: this
    is the least that makes a value written by one run the value the next
    run reads. *)
Definition apply_call (c : call) (r : remote) : remote :=
  match c with
  | device_update id value =>
      {| device_vars := set_value id value <$> device_vars r;
         application_vars := application_vars r |}
  | device_create _ name value =>
      {| device_vars :=
           device_vars r ++ [{| var_id := fresh_id r; var_name := name; var_value := value |}];
         application_vars := application_vars r |}
  | application_update id value =>
      {| device_vars := device_vars r;
         application_vars := set_value id value <$> application_vars r |}
  | application_create _ name value =>
      {| device_vars := device_vars r;
         application_vars :=
           application_vars r ++ [{| var_id := fresh_id r; var_name := name; var_value := value |}] |}
  | _ => r
  end.

(** Computations that read and change the world and may raise. *)
Definition M (A : Type) : Type := world → result A * world.

#[global] Instance M_ret : MRet M := λ A a w, (Return a, w).
#[global] Instance M_bind : MBind M := λ A B f m w,
  match m w with
  | (Return a, w') => f a w'
  | (Raise e, w') => (Raise e, w')
  end.

Definition raise {A : Type} (e : exception) : M A := λ w, (Raise e, w).

Definition lift {A : Type} (r : result A) : M A := λ w, (r, w).

(** Reading the world. *)
Definition gets {A : Type} (f : world → A) : M A := λ w, (Return (f w), w).

Definition getenv (name : environ → option string) : M (option string) :=
  gets (λ w, name (env w)).

Definition print (m : message) : M unit :=
  λ w, (Return (), {| env := env w; cloud := cloud w; calls := calls w;
                      stdout := stdout w ++ [m] |}).

(** A call on the client: recorded, and applied to the service. *)
Definition do_call (c : call) : M unit :=
  λ w, (Return (), {| env := env w; cloud := apply_call c (cloud w);
                      calls := calls w ++ [c]; stdout := stdout w |}).

Definition get_all_device (uuid : option string) : M (list variable) :=
  _ ← do_call (device_get_all uuid); gets (λ w, device_vars (cloud w)).

Definition get_all_application (app_id : option string) : M (list variable) :=
  _ ← do_call (application_get_all app_id); gets (λ w, application_vars (cloud w)).

(** ** Set operators on a value that may be [None] *)

(** [x | y] and [x - y] where [y] is a set: a [TypeError] when [x] is [None]. *)
Definition py_or (x : option (gset string)) (y : gset string) : result (gset string) :=
  match x with
  | Some s => Return (s ∪ y)
  | None => Raise TypeError
  end.

Definition py_sub (x : option (gset string)) (y : gset string) : result (gset string) :=
  match x with
  | Some s => Return (s ∖ y)
  | None => Raise TypeError
  end.

(** Lines 140-147: whether the device has an overlay variable of its own, and
    the set the change starts from. *)
Definition current_overlays (device_dt_overlays app_dt_overlays : option (gset string))
  : bool * option (gset string) :=
  match device_dt_overlays with
  | Some d => (true, Some d)
  | None =>
      match app_dt_overlays with
      | Some a => (false, Some a)
      | None => (false, None)
      end
  end.

(** Line 158, from the order in which the set is iterated. *)
Definition dt_overlay_string_of (tokens : list string) : string :=
  join "," (quoted <$> filter (λ tok, truthy tok = true) tokens).

Section control.

(** The order in which Python iterates a set is not fixed by the language:
    [iter] is that order. *)
Variable iter : gset string → list string.

(** ** [control_uart] (lines 111-168) *)
Definition control_uart (control : string) : M unit :=
  if negb (bool_decide (control ∈ ["enable"; "disable"])) then
    raise (ValueError ("Unrecognized control parameter: " +:+ control))
  else
    token ← getenv BALENA_API_KEY;
    _ ← do_call (login_with_token token);
    device_uuid ← getenv BALENA_DEVICE_UUID;
    app_id ← getenv BALENA_APP_ID;
    all_device_vars ← get_all_device device_uuid;
    '(device_dt_overlays, dt_overlay_var_id) ← lift (find_dtoverlay_config all_device_vars);
    _ ← print (msg_device_dt_overlay device_dt_overlays);
    all_app_vars ← get_all_application app_id;
    '(app_dt_overlays, _) ← lift (find_dtoverlay_config all_app_vars);
    _ ← print (msg_fleet_dt_overlay app_dt_overlays);
    let '(device_overlay_exists, current_dt_overlays) :=
      current_overlays device_dt_overlays app_dt_overlays in
    new_dt_overlay ← lift (if bool_decide (lower control = "enable")
                           then py_or current_dt_overlays {[ UART_OVERLAY ]}
                           else py_sub current_dt_overlays {[ UART_OVERLAY ]});
    if bool_decide (Some new_dt_overlay = current_dt_overlays) then
      print msg_no_update_needed
    else
      let dt_overlay_string := dt_overlay_string_of (iter new_dt_overlay) in
      _ ← (if device_overlay_exists then
             _ ← do_call (device_update dt_overlay_var_id dt_overlay_string);
             print (msg_updated dt_overlay_string)
           else
             _ ← do_call (device_create device_uuid "BALENA_HOST_CONFIG_dtoverlay"
                                        dt_overlay_string);
             print (msg_created dt_overlay_string));
      print (msg_uart0 control).

End control.

(** The world before a run: nothing called, nothing printed. *)
Definition initial (e : environ) (r : remote) : world :=
  {| env := e; cloud := r; calls := []; stdout := [] |}.

(** ** Vocabulary of the statements *)

(** The three calls every run that gets past the check of [control] starts
    with: the login and the two reads. *)
Definition reads (e : environ) : list call :=
  [login_with_token (BALENA_API_KEY e); device_get_all (BALENA_DEVICE_UUID e);
   application_get_all (BALENA_APP_ID e)].

(** Lines 149-152 on a current set that is a set. *)
Definition new_overlays (control : string) (current : gset string) : gset string :=
  if bool_decide (lower control = "enable")
  then current ∪ {[ UART_OVERLAY ]}
  else current ∖ {[ UART_OVERLAY ]}.

(** No variable of the list has one of the two names. *)
Definition no_dtoverlay (vars : list variable) : Prop :=
  Forall (λ v, is_dtoverlay_name (var_name v) = false) vars.

(** The message of the [ValueError] of line 122. *)
Definition unrecognized (control : string) : exception :=
  ValueError ("Unrecognized control parameter: " +:+ control).

(** Lines 160-166: the one write of a run that writes. *)
Definition write_call (e : environ) (device_overlay_exists : bool)
    (dt_overlay_var_id : option string) (dt_overlay_string : string) : call :=
  if device_overlay_exists then device_update dt_overlay_var_id dt_overlay_string
  else device_create (BALENA_DEVICE_UUID e) "BALENA_HOST_CONFIG_dtoverlay" dt_overlay_string.

Definition write_message (device_overlay_exists : bool) (dt_overlay_string : string)
  : message :=
  if device_overlay_exists then msg_updated dt_overlay_string
  else msg_created dt_overlay_string.

(** Where a run of [control_uart] that got past the check of [control] ends,
    from what the two calls of [find_dtoverlay_config] gave. *)
Definition run_from (iter : gset string → list string) (control : string)
    (e : environ) (r : remote)
    (dev app : result (option (gset string) * option string))
  : result () * world :=
  match dev with
  | Raise ex =>
      (Raise ex, {| env := e; cloud := r;
                    calls := [login_with_token (BALENA_API_KEY e);
                              device_get_all (BALENA_DEVICE_UUID e)];
                    stdout := [] |})
  | Return (d, id) =>
      match app with
      | Raise ex =>
          (Raise ex, {| env := e; cloud := r; calls := reads e;
                        stdout := [msg_device_dt_overlay d] |})
      | Return (a, _) =>
          let '(device_overlay_exists, current) := current_overlays d a in
          match current with
          | None =>
              (Raise TypeError,
               {| env := e; cloud := r; calls := reads e;
                  stdout := [msg_device_dt_overlay d; msg_fleet_dt_overlay a] |})
          | Some cur =>
              if decide (new_overlays control cur = cur) then
                (Return (),
                 {| env := e; cloud := r; calls := reads e;
                    stdout := [msg_device_dt_overlay d; msg_fleet_dt_overlay a;
                               msg_no_update_needed] |})
              else
                let s := dt_overlay_string_of (iter (new_overlays control cur)) in
                let c := write_call e device_overlay_exists id s in
                (Return (),
                 {| env := e; cloud := apply_call c r; calls := reads e ++ [c];
                    stdout := [msg_device_dt_overlay d; msg_fleet_dt_overlay a;
                               write_message device_overlay_exists s;
                               msg_uart0 control] |})
          end
      end
  end.

Fixpoint all_chars (p : ascii → bool) (s : string) : bool :=
  match s with
  | EmptyString => true
  | String c s' => p c && all_chars p s'
  end.

(** A letter, a digit or a hyphen. *)
Definition is_token_char (c : ascii) : bool :=
  let n := Ascii.N_of_ascii c in
  ((48 <=? n) && (n <=? 57))%N || ((65 <=? n) && (n <=? 90))%N
  || ((97 <=? n) && (n <=? 122))%N || bool_decide (c = "-"%char).

(** An alphanumeric-hyphen token: one character or more, each a letter, a
    digit or a hyphen. *)
Definition is_token (s : string) : bool := truthy s && all_chars is_token_char s.

(** Characters a JSON string literal holds as they are: no double quote, no
    backslash, no control character. *)
Definition plain_char (c : ascii) : bool :=
  negb (bool_decide (c = dquote)) && negb (bool_decide (c = backslash))
  && negb (Ascii.N_of_ascii c <? 32)%N.

Definition is_plain (s : string) : bool := all_chars plain_char s.

(** [l] is an order in which the set [X] can be iterated. *)
Definition iteration_of (X : gset string) (l : list string) : Prop := l ≡ₚ elements X.

Definition iteration_order (iter : gset string → list string) : Prop :=
  ∀ X, iteration_of X (iter X).

(** A value that lines 104-107 read without an exception. *)
Definition decodes (value : string) : Prop :=
  ∃ S, parse_dtoverlay_value value = Return S.

(** Every overlay variable of the list has a value that decodes. *)
Definition overlays_decode (vars : list variable) : Prop :=
  Forall (λ v, is_dtoverlay_name (var_name v) = true → decodes (var_value v)) vars.

(** ** Worlds the statements are tried on *)

Definition example_env : environ :=
  {| BALENA_API_KEY := Some "key"; BALENA_DEVICE_UUID := Some "uuid";
     BALENA_APP_ID := Some "7" |}.

Definition var (id : N) (name value : string) : variable :=
  {| var_id := id; var_name := name; var_value := value |}.

(** A service with no overlay variable in either scope. *)
Definition remote_without_overlay : remote :=
  {| device_vars := [var 1 "GPS_CUSTOM_BAUD" "9600"];
     application_vars := [var 2 "LOG_LEVEL" "debug"] |}.

(** A device that has the overlay already, in a variable of its own. *)
Definition remote_enabled : remote :=
  {| device_vars := [var 5 "BALENA_HOST_CONFIG_dtoverlay" "disable-bt"];
     application_vars := [] |}.

(** A device with the overlay and ["other"] in a variable of its own. *)
Definition remote_with_other : remote :=
  {| device_vars :=
       [var 5 "BALENA_HOST_CONFIG_dtoverlay" (quoted "disable-bt" +:+ "," +:+ quoted "other")];
     application_vars := [var 2 "RESIN_HOST_CONFIG_dtoverlay" "vc4-kms-v3d"] |}.

(** Two device variables with the overlay name; the value of the first is
    two string literals with no comma between them. *)
Definition vars_malformed_first : list variable :=
  [var 1 "BALENA_HOST_CONFIG_dtoverlay" (quoted "a" +:+ " " +:+ quoted "b");
   var 2 "BALENA_HOST_CONFIG_dtoverlay" "x"].

(** Two device variables with the same name and different identifiers. *)
Definition vars_two_overlays : list variable :=
  [var 1 "BALENA_HOST_CONFIG_dtoverlay" "vc4-kms-v3d";
   var 2 "BALENA_HOST_CONFIG_dtoverlay" (quoted "i2c1" +:+ "," +:+ quoted "disable-bt");
   var 3 "GPS_CUSTOM_BAUD" "9600"].

(** A device with no overlay variable of its own, in a fleet that has one. *)
Definition remote_fleet_only : remote :=
  {| device_vars := [var 1 "GPS_CUSTOM_BAUD" "9600"];
     application_vars := [var 2 "RESIN_HOST_CONFIG_dtoverlay" "vc4-kms-v3d"] |}.

(** A device whose overlay variable holds one token that ends in a double
    quote. *)
Definition remote_with_quote : remote :=
  {| device_vars := [var 5 "BALENA_HOST_CONFIG_dtoverlay" ("x" +:+ String dquote EmptyString)];
     application_vars := [] |}.

(** ** The rest of the program: detection and the daemon

    [detect_supported_hardware] (lines 27-38), [disable_dev_console] (lines
    40-90), [detect_serial_device] (lines 170-185) and the body run under
    [__main__] (lines 187-208).  What the program finds on the machine is a
    [host]; the processes it starts, the pauses it takes and the lines these
    functions print are recorded in a trace, next to the world of
    [control_uart].  A character is a code point below 256. *)

(** Lines 18-23. *)
Definition SUPPORTED_MODELS : list string := ["Raspberry Pi 3"].
Definition UART0_DEV : string := "/dev/ttyAMA0".
Definition ACM_CDC_DEV : string := "/dev/ttyACM0".

Record host : Type := {
  (* [pathlib.Path(ACM_CDC_DEV).is_char_device()] *)
  acm_is_char_device : bool;
  (* the text of /proc/device-tree/model as a text file gives it; [None]
     when the file cannot be opened *)
  device_tree_model : option string;
  GPS_CUSTOM_BAUD : option string;
  DBUS_SYSTEM_BUS_ADDRESS : option string;
  (* what [gpsd.wait()] returns *)
  gpsd_return_code : Z
}.

(** [file.readline()] on a file just opened: the text up to the first line
    feed, the line feed included. *)
Fixpoint readline (s : string) : string :=
  match s with
  | EmptyString => EmptyString
  | String c s' =>
      if decide (c = "010"%char) then String c EmptyString else String c (readline s')
  end.

(** [c.isspace()] *)
Definition is_space (c : ascii) : bool :=
  let n := Ascii.N_of_ascii c in
  ((9 <=? n) && (n <=? 13))%N || ((28 <=? n) && (n <=? 32))%N
  || (n =? 133)%N || (n =? 160)%N.

(** [s.rstrip()] *)
Fixpoint rstrip (s : string) : string :=
  match s with
  | EmptyString => EmptyString
  | String c s' =>
      match rstrip s' with
      | EmptyString => if is_space c then EmptyString else String c EmptyString
      | r => String c r
      end
  end.

(** [sub in s] *)
Fixpoint contains (sub s : string) : bool :=
  startswith sub s
  || match s with
     | EmptyString => false
     | String _ s' => contains sub s'
     end.

(** What these functions raise.  An exception of [control_uart] goes up as
    it is; [open] raises when the model file cannot be opened; [Popen] raises
    a [TypeError] when the environment it is given maps a name to [None]. *)
Inductive raised : Type :=
  | raised_by_control_uart (ex : exception)
  | raised_by_open
  | raised_by_popen.

Inductive outcome (A : Type) : Type :=
  | Done (a : A)
  | Failed (ex : raised).
Arguments Done {A} a.
Arguments Failed {A} ex.

(** The lines printed outside [control_uart], by what they say. *)
Inductive line : Type :=
  | line_detected_model (model : string)             (* line 34 *)
  | line_uart_not_supported (model_string : string)  (* line 37 *)
  | line_sending_dbus                                (* line 50 *)
  | line_setting_baud (baud : string)                (* line 85 *)
  | line_usb_cdc_detected                            (* line 172 *)
  | line_usb_cdc_not_found                           (* line 176 *)
  | line_detecting_hardware                          (* line 177 *)
  | line_hardware_uart_supported                     (* line 180 *)
  | line_supported_hardware_not_found                (* line 184 *)
  | line_detection_error (ex : raised)               (* line 191 *)
  | line_defaulting                                  (* line 192 *)
  | line_exiting                                     (* line 196 *)
  | line_starting_gpsd (gps_serial_dev : string)     (* line 203 *)
  | line_gpsd_failed (return_code : Z).              (* line 207 *)

Inductive step : Type :=
  | printed (l : line)
  (* [Popen([command], shell=True, env=...)]; no [env]: the parent's *)
  | popen_shell (command : string) (environment : option (list (string * string)))
  (* [Popen(argv)] *)
  | popen (argv : list string)
  | wait
  | sleep (seconds : nat)
  | quit.

#[global] Instance raised_eq_dec : EqDecision raised.
Proof. solve_decision. Defined.

#[global] Instance line_eq_dec : EqDecision line.
Proof. solve_decision. Defined.

#[global] Instance step_eq_dec : EqDecision step.
Proof. solve_decision. Defined.

Record machine : Type := {
  hw : host;
  balena : world;     (* the world of [control_uart] *)
  trace : list step   (* what was done so far, oldest first *)
}.

Definition P (A : Type) : Type := machine → outcome A * machine.

#[global] Instance P_ret : MRet P := λ A a m, (Done a, m).
#[global] Instance P_bind : MBind P := λ A B f p m,
  match p m with
  | (Done a, m') => f a m'
  | (Failed ex, m') => (Failed ex, m')
  end.

Definition fail {A : Type} (ex : raised) : P A := λ m, (Failed ex, m).

Definition ask {A : Type} (f : host → A) : P A := λ m, (Done (f (hw m)), m).

Definition do_step (s : step) : P unit :=
  λ m, (Done (), {| hw := hw m; balena := balena m; trace := trace m ++ [s] |}).

Definition say (l : line) : P unit := do_step (printed l).

(** [Popen([command], shell=True, env={name: value})] *)
Definition popen_shell_env (command name : string) (value : option string) : P unit :=
  match value with
  | Some v => do_step (popen_shell command (Some [(name, v)]))
  | None => fail raised_by_popen
  end.

(** The two commands of lines 51-82. *)
Definition mask_command : string :=
  "dbus-send --system --print-reply --dest=org.freedesktop.systemd1 /org/freedesktop/systemd1 org.freedesktop.systemd1.Manager.MaskUnitFiles array:string:"
  +:+ quoted "serial-getty@serial0.service" +:+ " boolean:true boolean:true".

Definition stop_command : string :=
  "dbus-send --system --print-reply --dest=org.freedesktop.systemd1 /org/freedesktop/systemd1 org.freedesktop.systemd1.Manager.StopUnit string:"
  +:+ quoted "serial-getty@serial0.service" +:+ " string:replace".

(** The loop of lines 32-38. *)
Fixpoint supported_model_loop (models : list string) (model_string : string)
  : P (option string) :=
  match models with
  | [] => _ ← say (line_uart_not_supported model_string); mret None
  | model :: rest =>
      if contains model model_string then
        _ ← say (line_detected_model model); mret (Some model)
      else supported_model_loop rest model_string
  end.

(** [detect_supported_hardware] (lines 27-38) *)
Definition detect_supported_hardware : P (option string) :=
  file ← ask device_tree_model;
  match file with
  | None => fail raised_by_open
  | Some text =>
      let model_string := rstrip (readline text) in
      supported_model_loop SUPPORTED_MODELS model_string
  end.

(** [disable_dev_console] (lines 40-90) *)
Definition disable_dev_console : P unit :=
  _ ← say line_sending_dbus;
  address ← ask DBUS_SYSTEM_BUS_ADDRESS;
  _ ← popen_shell_env mask_command "DBUS_SYSTEM_BUS_ADDRESS" address;
  _ ← do_step wait;
  address ← ask DBUS_SYSTEM_BUS_ADDRESS;
  _ ← popen_shell_env stop_command "DBUS_SYSTEM_BUS_ADDRESS" address;
  _ ← do_step wait;
  custom ← ask GPS_CUSTOM_BAUD;
  let baud := default "9600" custom in
  _ ← say (line_setting_baud baud);
  _ ← do_step (popen ["stty"; "-F"; UART0_DEV; baud]);
  _ ← do_step wait;
  do_step (sleep 1).

Section program.

Variable iter : gset string → list string.

(** A call of [control_uart], in the world the machine holds. *)
Definition call_control_uart (control : string) : P unit :=
  λ m, let '(r, w) := control_uart iter control (balena m) in
       (match r with
        | Return _ => Done ()
        | Raise ex => Failed (raised_by_control_uart ex)
        end,
        {| hw := hw m; balena := w; trace := trace m |}).

(** [detect_serial_device] (lines 170-185) *)
Definition detect_serial_device : P (option string) :=
  usb ← ask acm_is_char_device;
  if (usb : bool) then
    _ ← say line_usb_cdc_detected;
    _ ← call_control_uart "disable";
    mret (Some ACM_CDC_DEV)
  else
    _ ← say line_usb_cdc_not_found;
    _ ← say line_detecting_hardware;
    supported_hardware ← detect_supported_hardware;
    if from_option truthy false supported_hardware then
      _ ← say line_hardware_uart_supported;
      _ ← call_control_uart "enable";
      mret (Some UART0_DEV)
    else
      _ ← say line_supported_hardware_not_found;
      mret None.

(** Lines 188-193: [except Exception].  The mark [Unmodelled] is no
    exception and is not caught. *)
Definition detect_or_default : P (option string) :=
  λ m, match detect_serial_device m with
       | (Failed ex, m') =>
           if decide (ex = raised_by_control_uart Unmodelled) then (Failed ex, m')
           else (_ ← say (line_detection_error ex);
                 _ ← say line_defaulting;
                 mret (Some ACM_CDC_DEV)) m'
       | done => done
       end.

(** The body run under [__main__] (lines 187-208). *)
Definition main : P unit :=
  gps_serial_dev ← detect_or_default;
  match gps_serial_dev with
  | None =>
      _ ← say line_exiting;
      _ ← do_step (sleep 10);
      do_step quit
  | Some dev =>
      _ ← (if decide (dev ≠ ACM_CDC_DEV) then disable_dev_console
           else (mret () : P unit));
      _ ← say (line_starting_gpsd dev);
      _ ← do_step (popen_shell ("gpsd -Nn -G " +:+ dev) None);
      _ ← do_step wait;
      return_code ← ask gpsd_return_code;
      if decide (return_code ≠ 0%Z) then
        _ ← say (line_gpsd_failed return_code);
        do_step (sleep 10)
      else mret ()
  end.

End program.

(** The machine when the program starts. *)
Definition boot (h : host) (e : environ) (r : remote) : machine :=
  {| hw := h; balena := initial e r; trace := [] |}.

(** The text before the first line feed. *)
Fixpoint first_line (s : string) : string :=
  match s with
  | EmptyString => EmptyString
  | String c s' =>
      if decide (c = "010"%char) then EmptyString else String c (first_line s')
  end.

(** Line 204: the start of the daemon on a device. *)
Definition gpsd_launch (gps_serial_dev : string) : step :=
  popen_shell ("gpsd -Nn -G " +:+ gps_serial_dev) None.

(** The processes started, in order. *)
Fixpoint processes (tr : list step) : list step :=
  match tr with
  | [] => []
  | s :: tr' =>
      match s with
      | popen_shell _ _ | popen _ => s :: processes tr'
      | _ => processes tr'
      end
  end.

(** The three processes of [disable_dev_console], in order. *)
Definition console_processes (h : host) (address : string) : list step :=
  [popen_shell mask_command (Some [("DBUS_SYSTEM_BUS_ADDRESS", address)]);
   popen_shell stop_command (Some [("DBUS_SYSTEM_BUS_ADDRESS", address)]);
   popen ["stty"; "-F"; UART0_DEV; default "9600" (GPS_CUSTOM_BAUD h)]].

(** A machine with no USB receiver, a Raspberry Pi 3 and the bus address
    set. *)
Definition host_pi3 : host :=
  {| acm_is_char_device := false;
     device_tree_model := Some ("Raspberry Pi 3 Model B Plus Rev 1.3" +:+ String "000"%char EmptyString);
     GPS_CUSTOM_BAUD := None;
     DBUS_SYSTEM_BUS_ADDRESS := Some "unix:path=/host/run/dbus/system_bus_socket";
     gpsd_return_code := 0 |}.

(** The same machine with the bus address not set. *)
Definition host_pi3_no_dbus : host :=
  {| acm_is_char_device := false;
     device_tree_model := Some ("Raspberry Pi 3 Model B Plus Rev 1.3" +:+ String "000"%char EmptyString);
     GPS_CUSTOM_BAUD := None;
     DBUS_SYSTEM_BUS_ADDRESS := None;
     gpsd_return_code := 0 |}.

(** What a call of [control_uart] gives [detect_serial_device]. *)
Definition after_control_uart (h : host) (tr : list step) (dev : string)
    (run : result () * world) : outcome (option string) * machine :=
  (match run.1 with
   | Return _ => Done (Some dev)
   | Raise ex => Failed (raised_by_control_uart ex)
   end,
   {| hw := h; balena := run.2; trace := tr |}).

(** Lines 203-208: the daemon started on a device, and waited for. *)
Definition gpsd_steps (h : host) (gps_serial_dev : string) : list step :=
  [printed (line_starting_gpsd gps_serial_dev); gpsd_launch gps_serial_dev; wait]
  ++ (if decide (gpsd_return_code h ≠ 0%Z)
      then [printed (line_gpsd_failed (gpsd_return_code h)); sleep 10]
      else []).

(** What [disable_dev_console] does when the bus address is set. *)
Definition console_steps (h : host) (address : string) : list step :=
  [printed line_sending_dbus;
   popen_shell mask_command (Some [("DBUS_SYSTEM_BUS_ADDRESS", address)]); wait;
   popen_shell stop_command (Some [("DBUS_SYSTEM_BUS_ADDRESS", address)]); wait;
   printed (line_setting_baud (default "9600" (GPS_CUSTOM_BAUD h)));
   popen ["stty"; "-F"; UART0_DEV; default "9600" (GPS_CUSTOM_BAUD h)]; wait;
   sleep 1].

(** The machine with more done. *)
Definition then_steps (m : machine) (tr : list step) : machine :=
  {| hw := hw m; balena := balena m; trace := trace m ++ tr |}.

(** Where the body under [__main__] ends, from what [detect_serial_device]
    gave. *)
Definition main_from (detection : outcome (option string) * machine)
  : outcome () * machine :=
  match detection with
  | (Failed ex, m) =>
      if decide (ex = raised_by_control_uart Unmodelled) then (Failed ex, m)
      else (Done (),
            then_steps m ([printed (line_detection_error ex); printed line_defaulting]
                          ++ gpsd_steps (hw m) ACM_CDC_DEV))
  | (Done None, m) => (Done (), then_steps m [printed line_exiting; sleep 10; quit])
  | (Done (Some dev), m) =>
      if decide (dev ≠ ACM_CDC_DEV) then
        match DBUS_SYSTEM_BUS_ADDRESS (hw m) with
        | None => (Failed raised_by_popen, then_steps m [printed line_sending_dbus])
        | Some address =>
            (Done (), then_steps m (console_steps (hw m) address ++ gpsd_steps (hw m) dev))
        end
      else (Done (), then_steps m (gpsd_steps (hw m) dev))
  end.

(** * Strings *)

Lemma app_String (c : ascii) (s t : string) : String c s +:+ t = String c (s +:+ t).
Proof. reflexivity. Qed.

Lemma app_empty_l (t : string) : EmptyString +:+ t = t.
Proof. reflexivity. Qed.

Lemma app_empty_r (s : string) : s +:+ EmptyString = s.
Proof. induction s as [|c s IH]; [done|]. by rewrite app_String, IH. Qed.

Lemma app_assoc_string (a b c : string) : (a +:+ b) +:+ c = a +:+ (b +:+ c).
Proof. induction a as [|x a IH]; [done|]. by rewrite !app_String, IH. Qed.

Lemma rev_app_rev_app (s a b : string) :
  String.rev_app (String.rev_app s a) b = String.rev_app a (s +:+ b).
Proof.
  revert a b. induction s as [|c s IH]; intros a b; [done|].
  simpl. by rewrite IH.
Qed.

Lemma rev_rev_app (s : string) : String.rev (String.rev_app s EmptyString) = s.
Proof. unfold String.rev. by rewrite rev_app_rev_app, app_empty_r. Qed.

Lemma last_char_app (s : string) (c : ascii) :
  last_char (s +:+ String c EmptyString) = Some c.
Proof.
  induction s as [|x s IH]; [done|].
  rewrite app_String. simpl. rewrite IH.
  by destruct (s +:+ String c EmptyString) eqn:E; [destruct s|].
Qed.

Lemma last_char_app_r (s t : string) :
  truthy t = true → last_char (s +:+ t) = last_char t.
Proof.
  intros Ht. induction s as [|x s IH]; [done|].
  rewrite app_String. simpl. rewrite IH.
  destruct (s +:+ t) eqn:E; [|done].
  destruct s; [|done]. rewrite app_empty_l in E. by subst.
Qed.

Lemma token_char_plain (c : ascii) : is_token_char c = true → plain_char c = true.
Proof. destruct c as [[] [] [] [] [] [] [] []]; vm_compute; congruence. Qed.

Lemma all_chars_impl (p q : ascii → bool) (s : string) :
  (∀ c, p c = true → q c = true) → all_chars p s = true → all_chars q s = true.
Proof.
  intros Hpq. induction s as [|c s IH]; [done|]. simpl.
  rewrite !andb_true_iff. intros [? ?]. auto.
Qed.

Lemma token_plain (s : string) : is_token s = true → is_plain s = true.
Proof.
  unfold is_token, is_plain. rewrite andb_true_iff. intros [_ H].
  eapply all_chars_impl; [apply token_char_plain|done].
Qed.

Lemma token_truthy (s : string) : is_token s = true → truthy s = true.
Proof. unfold is_token. rewrite andb_true_iff. by intros [? _]. Qed.

Lemma filter_truthy_all (l : list string) :
  Forall (λ tok, truthy tok = true) l → filter (λ tok, truthy tok = true) l = l.
Proof.
  induction 1 as [|tok l Htok _ IH]; [done|].
  by rewrite filter_cons_True, IH.
Qed.

(** * The JSON decoder on what line 158 writes *)

Lemma plain_char_inv (c : ascii) :
  plain_char c = true →
  c ≠ dquote ∧ c ≠ backslash ∧ (Ascii.N_of_ascii c <? 32)%N = false.
Proof.
  unfold plain_char. rewrite !andb_true_iff, !negb_true_iff, !bool_decide_eq_false.
  tauto.
Qed.

(** Inside a literal, plain characters are read up to the closing quote. *)
Lemma run_plain_literal (tok acc : string) (seen : list string) (rest : string) :
  is_plain tok = true →
  json_array_run (InString acc) seen (tok +:+ String dquote rest)
  = json_array_run AfterValue (String.rev (String.rev_app tok acc) :: seen) rest.
Proof.
  revert acc. induction tok as [|c tok IH]; intros acc Hp.
  - by rewrite app_empty_l.
  - unfold is_plain in Hp. simpl in Hp. apply andb_true_iff in Hp as [Hc Hp].
    apply plain_char_inv in Hc as (Hq & Hb & Hctl).
    rewrite app_String. simpl.
    rewrite decide_False, decide_False, Hctl by done.
    by apply IH.
Qed.

(** One literal written by [quoted] is read back as its token. *)
Lemma run_quoted (tok : string) (b : bool) (seen : list string) (rest : string) :
  is_plain tok = true →
  json_array_run (ExpectValue b) seen (quoted tok +:+ rest)
  = json_array_run AfterValue (tok :: seen) rest.
Proof.
  intros Hp. unfold quoted. rewrite app_String, app_assoc_string, app_String, app_empty_l.
  simpl. rewrite run_plain_literal by done. by rewrite rev_rev_app.
Qed.

(** The array body line 158 writes for the tokens [l] is read back as [l]. *)
Lemma run_joined (l : list string) (b : bool) (seen : list string) :
  l ≠ [] → Forall (λ tok, is_plain tok = true) l →
  json_array_run (ExpectValue b) seen (join "," (quoted <$> l) +:+ "]")
  = Return (reverse seen ++ l).
Proof.
  revert b seen. induction l as [|tok l IH]; intros b seen Hne Hall; [done|].
  apply Forall_cons in Hall as [Htok Hall].
  destruct l as [|tok' l].
  - change (join "," (quoted <$> [tok])) with (quoted tok).
    rewrite run_quoted by done. simpl. by rewrite reverse_cons.
  - change (join "," (quoted <$> tok :: tok' :: l))
      with (quoted tok +:+ "," +:+ join "," (quoted <$> tok' :: l)).
    rewrite !app_assoc_string, run_quoted by done.
    rewrite app_String, app_empty_l. simpl.
    rewrite IH by done. by rewrite reverse_cons, <-app_assoc.
Qed.

Lemma startswith_quoted_join (tok : string) (l : list string) :
  startswith (String dquote EmptyString) (join "," (quoted <$> tok :: l)) = true.
Proof. by destruct l. Qed.

Lemma last_char_quoted (tok : string) : last_char (quoted tok) = Some dquote.
Proof. unfold quoted. change (String dquote ?s) with (String dquote EmptyString +:+ s).
  rewrite <-app_assoc_string. apply last_char_app. Qed.

Lemma last_char_quoted_join (tok : string) (l : list string) :
  last_char (join "," (quoted <$> tok :: l)) = Some dquote.
Proof.
  revert tok. induction l as [|tok' l IH]; intros tok.
  - apply last_char_quoted.
  - change (join "," (quoted <$> tok :: tok' :: l))
      with (quoted tok +:+ "," +:+ join "," (quoted <$> tok' :: l)).
    rewrite <-app_assoc_string, last_char_app_r; [apply IH|].
    simpl. by destruct l.
Qed.

(** Lines 104-107 on what line 158 writes for the tokens [l], when one of
    them at least is written. *)
Lemma parse_written (l : list string) :
  Forall (λ tok, is_plain tok = true) l →
  filter (λ tok, truthy tok = true) l ≠ [] →
  parse_dtoverlay_value (dt_overlay_string_of l)
  = Return (list_to_set (filter (λ tok, truthy tok = true) l)).
Proof.
  intros Hall Hne. unfold dt_overlay_string_of.
  set (l' := filter (λ tok, truthy tok = true) l) in *.
  assert (Forall (λ tok, is_plain tok = true) l') as Hall'.
  { apply Forall_forall. intros x Hx. apply list_elem_of_filter in Hx as [_ Hx].
    by eapply Forall_forall in Hall. }
  destruct l' as [|tok l''] eqn:E; [done|].
  unfold parse_dtoverlay_value, endswith_char.
  rewrite startswith_quoted_join, last_char_quoted_join, bool_decide_eq_true_2 by done.
  simpl andb. cbv iota. unfold json_loads_list.
  by rewrite run_joined.
Qed.

(** The decoder on some texts, as Python's [json.loads] answers them. *)
Example json_loads_list_two : json_loads_list (quoted "a" +:+ " ," +:+ quoted "b") = Return ["a"; "b"].
Proof. reflexivity. Qed.

Example json_loads_list_no_comma :
  json_loads_list (quoted "a" +:+ " " +:+ quoted "b") = Raise JSONDecodeError.
Proof. reflexivity. Qed.

Example json_loads_list_trailing_comma :
  json_loads_list (quoted "a" +:+ ",") = Raise JSONDecodeError.
Proof. reflexivity. Qed.

Example json_loads_list_extra_data :
  json_loads_list (quoted "a" +:+ "]") = Raise JSONDecodeError.
Proof. reflexivity. Qed.

Example json_loads_list_lone_quote :
  json_loads_list (String dquote EmptyString) = Raise JSONDecodeError.
Proof. reflexivity. Qed.

Example json_loads_list_escape :
  json_loads_list (quoted ("a" +:+ String backslash "/b")) = Return ["a/b"].
Proof. reflexivity. Qed.

Example json_loads_list_number :
  json_loads_list (quoted "a" +:+ ",1") = Raise Unmodelled.
Proof. reflexivity. Qed.

(** Lines 104-107 on a bare value, on a quoted list, and on the empty
    string. *)
Example parse_bare : parse_dtoverlay_value "vc4-kms-v3d" = Return {[ "vc4-kms-v3d" ]}.
Proof. reflexivity. Qed.

Example parse_quoted_list :
  parse_dtoverlay_value (quoted "i2c1" +:+ "," +:+ quoted "disable-bt")
  = Return {[ "i2c1"; "disable-bt" ]}.
Proof. vm_compute. reflexivity. Qed.

(** * The overlay in a set *)

(** The order of [elements] is one of the orders a set can be iterated in. *)
Lemma elements_iteration_order : iteration_order elements.
Proof. intros X. unfold iteration_of. reflexivity. Qed.

Lemma enable_valid : "enable" ∈ ["enable"; "disable"].
Proof. by left. Qed.

Lemma disable_valid : "disable" ∈ ["enable"; "disable"].
Proof. right. by left. Qed.

Lemma overlay_in_union (S : gset string) : UART_OVERLAY ∈ S ∪ {[ UART_OVERLAY ]}.
Proof. apply elem_of_union_r. by apply elem_of_singleton. Qed.

Lemma union_overlay_in (S : gset string) :
  UART_OVERLAY ∈ S → S ∪ {[ UART_OVERLAY ]} = S.
Proof.
  intros Hin. apply set_eq. intros x. rewrite elem_of_union, elem_of_singleton.
  split; [by intros [?| ->]|by left].
Qed.

Lemma union_overlay_notin (S : gset string) :
  UART_OVERLAY ∉ S → S ∪ {[ UART_OVERLAY ]} ≠ S.
Proof. intros Hin H. apply Hin. rewrite <-H. apply overlay_in_union. Qed.

Lemma singleton_not_empty (x : string) : ({[ x ]} : gset string) ≠ ∅.
Proof.
  intros H. apply (not_elem_of_empty (C:=gset string) x).
  rewrite <-H. by apply elem_of_singleton.
Qed.

(** * [control_uart], path by path *)

(** A run with a valid [control] is decided by the two results of
    [find_dtoverlay_config]. *)
Lemma control_uart_run (iter : gset string → list string) (control : string)
    (e : environ) (r : remote) :
  control ∈ ["enable"; "disable"] →
  control_uart iter control (initial e r)
  = run_from iter control e r (find_dtoverlay_config (device_vars r))
                              (find_dtoverlay_config (application_vars r)).
Proof.
  intros Hc. unfold control_uart. rewrite bool_decide_eq_true_2 by done.
  simpl negb. cbv iota.
  unfold mbind, M_bind, getenv, gets, get_all_device, get_all_application,
    do_call, lift, print, initial, mbind, M_bind. simpl.
  destruct (find_dtoverlay_config (device_vars r)) as [[d id]|ex]; [|done]. simpl.
  destruct (find_dtoverlay_config (application_vars r)) as [[a aid]|ex]; [|done]. simpl.
  destruct d as [d|], a as [a|]; simpl; unfold new_overlays;
    destruct (bool_decide (lower control = "enable")); try done;
    case_bool_decide; case_decide; try done; congruence.
Qed.

(** * [find_dtoverlay_config] *)

Lemma find_loop_no_match (vars : list variable) (c : option (gset string))
    (i : option string) :
  no_dtoverlay vars → find_dtoverlay_loop vars c i = Return (c, i).
Proof.
  induction 1 as [|v vars Hv _ IH]; [done|]. simpl. by rewrite Hv.
Qed.

Lemma find_no_match (vars : list variable) :
  no_dtoverlay vars → find_dtoverlay_config vars = Return (None, None).
Proof. apply find_loop_no_match. Qed.

Lemma json_array_run_raises (s : string) (st : json_state) (seen : list string)
    (ex : exception) :
  json_array_run st seen s = Raise ex → ex = JSONDecodeError ∨ ex = Unmodelled.
Proof.
  revert st seen. induction s as [|c s IH]; intros st seen.
  - destruct st; simpl; intros; simplify_eq; auto.
  - destruct st; simpl; repeat case_match; intros; simplify_eq; eauto.
Qed.

Lemma parse_raises (value : string) (ex : exception) :
  parse_dtoverlay_value value = Raise ex → ex = JSONDecodeError ∨ ex = Unmodelled.
Proof.
  unfold parse_dtoverlay_value, json_loads_list. case_match; [|done].
  destruct (json_array_run _ _ _) eqn:E; [done|].
  simpl. intros [= <-]. by eapply json_array_run_raises.
Qed.

Lemma find_loop_raises (vars : list variable) (c : option (gset string))
    (i : option string) (ex : exception) :
  find_dtoverlay_loop vars c i = Raise ex → ex = JSONDecodeError ∨ ex = Unmodelled.
Proof.
  revert c i. induction vars as [|v vars IH]; intros c i; [done|]. simpl.
  case_match; [|by apply IH].
  destruct (parse_dtoverlay_value (var_value v)) eqn:E; simpl; [by apply IH|].
  intros [= <-]. by eapply parse_raises.
Qed.

Lemma find_loop_skip (pre rest : list variable) (c : option (gset string))
    (i : option string) :
  no_dtoverlay pre →
  find_dtoverlay_loop (pre ++ rest) c i = find_dtoverlay_loop rest c i.
Proof.
  induction 1 as [|v pre Hv _ IH]; [done|]. simpl. by rewrite Hv.
Qed.

(** The loop gets through a prefix whose overlay variables decode. *)
Lemma find_loop_prefix (pre : list variable) (c : option (gset string))
    (i : option string) :
  overlays_decode pre →
  ∃ c' i', ∀ rest,
    find_dtoverlay_loop (pre ++ rest) c i = find_dtoverlay_loop rest c' i'.
Proof.
  intros Hpre. revert c i. induction Hpre as [|v pre Hv _ IH]; intros c i.
  - by exists c, i.
  - simpl. destruct (is_dtoverlay_name (var_name v)); [|by apply IH].
    destruct Hv as [S HS]; [done|]. rewrite HS. simpl. by apply IH.
Qed.

(** Once the loop holds a set, it returns one. *)
Lemma find_loop_keeps_some (vars : list variable) (s : gset string)
    (i0 i : option string) (c : option (gset string)) :
  find_dtoverlay_loop vars (Some s) i0 = Return (c, i) → is_Some c.
Proof.
  revert s i0. induction vars as [|v vars IH]; intros s i0; simpl.
  - intros [= <- <-]. by eexists.
  - case_match; [|by apply IH].
    destruct (parse_dtoverlay_value (var_value v)); simpl; [by apply IH|done].
Qed.

(** When no set comes back, no variable had one of the two names. *)
Lemma find_none_no_match (vars : list variable) (i : option string) :
  find_dtoverlay_config vars = Return (None, i) → no_dtoverlay vars.
Proof.
  unfold find_dtoverlay_config. generalize (@None string).
  induction vars as [|v vars IH]; intros i0; simpl; [by constructor|].
  destruct (is_dtoverlay_name (var_name v)) eqn:E.
  - destruct (parse_dtoverlay_value (var_value v)); simpl; [|done].
    intros H. apply find_loop_keeps_some in H. by destruct H.
  - intros H. constructor; [done|]. by eapply IH.
Qed.

(** When a set comes back, an identifier comes with it. *)
Lemma find_loop_some_id (vars : list variable) (c0 c : option (gset string))
    (i0 i : option string) :
  (is_Some c0 → is_Some i0) →
  find_dtoverlay_loop vars c0 i0 = Return (c, i) → is_Some c → is_Some i.
Proof.
  revert c0 i0. induction vars as [|v vars IH]; intros c0 i0 H0; simpl.
  - intros [= <- <-]. done.
  - case_match; [|by apply IH].
    destruct (parse_dtoverlay_value (var_value v)); simpl; [|done].
    apply IH. by eexists.
Qed.

Lemma set_value_name (id : option string) (s : string) (v : variable) :
  var_name (set_value id s v) = var_name v.
Proof. unfold set_value. by case_decide. Qed.

Lemma set_value_id (id : option string) (s : string) (v : variable) :
  var_id (set_value id s v) = var_id v.
Proof. unfold set_value. by case_decide. Qed.

Lemma set_value_value (id : option string) (s : string) (v : variable) :
  var_value (set_value id s v)
  = if decide (Some (pretty (var_id v)) = id) then s else var_value v.
Proof. unfold set_value. by case_decide. Qed.

(** After an update of the variable the loop ended on, the loop ends on the
    value written. *)
Lemma find_loop_after_update (vars : list variable) (x s : string) (S' : gset string)
    (c0 c0' c : option (gset string)) (i0 : option string) :
  parse_dtoverlay_value s = Return S' →
  find_dtoverlay_loop vars c0 i0 = Return (c, Some x) →
  (i0 = Some x → c0' = Some S') →
  find_dtoverlay_loop (set_value (Some x) s <$> vars) c0' i0 = Return (Some S', Some x).
Proof.
  intros Hs. revert c0 c0' i0. induction vars as [|v vars IH]; intros c0 c0' i0; simpl.
  - intros [= <- <-] H. by rewrite H.
  - rewrite set_value_name, set_value_id, set_value_value.
    destruct (is_dtoverlay_name (var_name v)); [|by apply IH].
    destruct (parse_dtoverlay_value (var_value v)) as [s0|] eqn:E; simpl; [|done].
    intros H _. case_decide.
    + rewrite Hs. simpl. eapply IH; [done|]. done.
    + rewrite E. simpl. eapply IH; [done|]. done.
Qed.

(** After a create on a device that had no overlay variable, the loop ends
    on the variable created. *)
Lemma find_after_create (vars : list variable) (nv : variable) (S' : gset string) :
  no_dtoverlay vars →
  is_dtoverlay_name (var_name nv) = true →
  parse_dtoverlay_value (var_value nv) = Return S' →
  find_dtoverlay_config (vars ++ [nv]) = Return (Some S', Some (pretty (var_id nv))).
Proof.
  intros Hno Hname Hs. unfold find_dtoverlay_config.
  rewrite find_loop_skip by done. simpl. by rewrite Hname, Hs.
Qed.

(** * The claims *)

(** C1 (what the code does where the claim expects a create): with
    [control = "enable"] and no overlay variable in either scope, the current
    set is [None], the union of line 150 raises a [TypeError] after the login
    and the two reads, and neither a create nor an update is issued. *)
Theorem control_uart_enable_without_overlay (iter : gset string → list string)
    (e : environ) (r : remote) :
  no_dtoverlay (device_vars r) → no_dtoverlay (application_vars r) →
  control_uart iter "enable" (initial e r)
  = (Raise TypeError,
     {| env := e; cloud := r; calls := reads e;
        stdout := [msg_device_dt_overlay None; msg_fleet_dt_overlay None] |}).
Proof.
  intros Hd Ha. rewrite control_uart_run by apply enable_valid.
  by rewrite (find_no_match _ Hd), (find_no_match _ Ha).
Qed.

Lemma control_uart_enable_without_overlay_witness :
  control_uart elements "enable" (initial example_env remote_without_overlay)
  = (Raise TypeError,
     {| env := example_env; cloud := remote_without_overlay;
        calls := reads example_env;
        stdout := [msg_device_dt_overlay None; msg_fleet_dt_overlay None] |}).
Proof.
  apply (control_uart_enable_without_overlay elements example_env remote_without_overlay);
    repeat constructor.
Defined.

(** C2 (what the code does where the claim expects a create): with
    [control = "disable"] and no overlay variable in either scope, the
    difference of line 152 raises a [TypeError] after the login and the two
    reads; the comparison of line 154 is not reached and nothing is
    written. *)
Theorem control_uart_disable_without_overlay (iter : gset string → list string)
    (e : environ) (r : remote) :
  no_dtoverlay (device_vars r) → no_dtoverlay (application_vars r) →
  control_uart iter "disable" (initial e r)
  = (Raise TypeError,
     {| env := e; cloud := r; calls := reads e;
        stdout := [msg_device_dt_overlay None; msg_fleet_dt_overlay None] |}).
Proof.
  intros Hd Ha. rewrite control_uart_run by apply disable_valid.
  by rewrite (find_no_match _ Hd), (find_no_match _ Ha).
Qed.

Lemma control_uart_disable_without_overlay_witness :
  control_uart elements "disable" (initial example_env remote_without_overlay)
  = (Raise TypeError,
     {| env := example_env; cloud := remote_without_overlay;
        calls := reads example_env;
        stdout := [msg_device_dt_overlay None; msg_fleet_dt_overlay None] |}).
Proof.
  apply (control_uart_disable_without_overlay elements example_env remote_without_overlay);
    repeat constructor.
Defined.

(** C3: write-skip.  For [control] one of [enable] and [disable] and a
    current set [cur] (the device's, or else the application's), when adding
    the overlay (enable) or removing it (disable) gives [cur] again, the run
    makes the login and the two reads and no write, leaves the service as it
    was, and reports that no update is needed. *)
Theorem control_uart_write_skip (iter : gset string → list string) (control : string)
    (e : environ) (r : remote) (d a : option (gset string)) (id aid : option string)
    (device_overlay_exists : bool) (cur : gset string) :
  control ∈ ["enable"; "disable"] →
  find_dtoverlay_config (device_vars r) = Return (d, id) →
  find_dtoverlay_config (application_vars r) = Return (a, aid) →
  current_overlays d a = (device_overlay_exists, Some cur) →
  (control = "enable" → cur ∪ {[ UART_OVERLAY ]} = cur) →
  (control = "disable" → cur ∖ {[ UART_OVERLAY ]} = cur) →
  control_uart iter control (initial e r)
  = (Return (),
     {| env := e; cloud := r; calls := reads e;
        stdout := [msg_device_dt_overlay d; msg_fleet_dt_overlay a;
                   msg_no_update_needed] |})
  ∧ Forall (λ c, is_write c = false) (calls (control_uart iter control (initial e r)).2).
Proof.
  intros Hc Hd Ha Hcur Hen Hdis.
  assert (new_overlays control cur = cur) as Hnew.
  { unfold new_overlays.
    apply elem_of_cons in Hc as [->|Hc]; [by apply Hen|].
    apply list_elem_of_singleton in Hc as ->. by apply Hdis. }
  rewrite control_uart_run, Hd, Ha by done. simpl. rewrite Hcur.
  rewrite decide_True by done. split; [done|]. simpl. by repeat constructor.
Qed.

Lemma control_uart_write_skip_witness :
  control_uart elements "enable" (initial example_env remote_enabled)
  = (Return (),
     {| env := example_env; cloud := remote_enabled; calls := reads example_env;
        stdout := [msg_device_dt_overlay (Some {[ UART_OVERLAY ]});
                   msg_fleet_dt_overlay None; msg_no_update_needed] |})
  ∧ Forall (λ c, is_write c = false)
      (calls (control_uart elements "enable" (initial example_env remote_enabled)).2).
Proof.
  apply (control_uart_write_skip elements "enable" example_env remote_enabled
           (Some {[ UART_OVERLAY ]}) None (Some "5") None true {[ UART_OVERLAY ]}).
  - constructor.
  - reflexivity.
  - reflexivity.
  - reflexivity.
  - intros _. apply (idemp_L (∪)).
  - intros [=].
Defined.

(** C6: [control_uart] raises the error of line 122 exactly when [control]
    is neither [enable] nor [disable]; it then raises before the login and
    before any read or write: no call is recorded, nothing is printed, and
    the service is as it was. *)
Theorem control_uart_invalid_control (iter : gset string → list string)
    (control : string) (e : environ) (r : remote) :
  ((∃ w, control_uart iter control (initial e r) = (Raise (unrecognized control), w))
   ↔ control ∉ ["enable"; "disable"])
  ∧ (control ∉ ["enable"; "disable"] →
     control_uart iter control (initial e r) = (Raise (unrecognized control), initial e r)).
Proof.
  assert (control ∉ ["enable"; "disable"] →
          control_uart iter control (initial e r)
          = (Raise (unrecognized control), initial e r)) as Hraise.
  { intros Hc. unfold control_uart. by rewrite bool_decide_eq_false_2. }
  split; [split|done].
  - intros [w Hw] Hc. rewrite control_uart_run in Hw by done.
    unfold run_from in Hw.
    destruct (find_dtoverlay_config (device_vars r)) as [[d id]|ex] eqn:Ed.
    + destruct (find_dtoverlay_config (application_vars r)) as [[a aid]|ex] eqn:Ea.
      * destruct (current_overlays d a) as [b [cur|]]; [case_decide|]; by simplify_eq.
      * apply find_loop_raises in Ea. unfold unrecognized in Hw.
        destruct Ea; by simplify_eq.
    + apply find_loop_raises in Ed. unfold unrecognized in Hw.
      destruct Ed; by simplify_eq.
  - intros Hc. eexists. by apply Hraise.
Qed.

Lemma control_uart_invalid_control_witness :
  control_uart elements "Enable" (initial example_env remote_enabled)
  = (Raise (unrecognized "Enable"), initial example_env remote_enabled).
Proof.
  apply (control_uart_invalid_control elements "Enable" example_env remote_enabled).
  intros H. repeat (apply elem_of_cons in H as [[=]|H]). by apply elem_of_nil in H.
Defined.

(** C9: with [control = "disable"] and a device variable whose set is the
    overlay and ["other"], the run issues one write, an update of that
    variable (the identifier [find_dtoverlay_config] gave), and the value
    written is ["other"] between double quotes: the overlay is removed. *)
Theorem control_uart_disable_keeps_other (iter : gset string → list string)
    (e : environ) (r : remote) (id aid : option string) (a : option (gset string)) :
  iteration_order iter →
  find_dtoverlay_config (device_vars r) = Return (Some {[ UART_OVERLAY; "other" ]}, id) →
  find_dtoverlay_config (application_vars r) = Return (a, aid) →
  control_uart iter "disable" (initial e r)
  = (Return (),
     {| env := e; cloud := apply_call (device_update id (quoted "other")) r;
        calls := reads e ++ [device_update id (quoted "other")];
        stdout := [msg_device_dt_overlay (Some {[ UART_OVERLAY; "other" ]});
                   msg_fleet_dt_overlay a; msg_updated (quoted "other");
                   msg_uart0 "disable"] |}).
Proof.
  intros Hiter Hd Ha. rewrite control_uart_run, Hd, Ha by apply disable_valid. simpl.
  assert (new_overlays "disable" {[ UART_OVERLAY; "other" ]} = {[ "other" ]}) as ->.
  { unfold new_overlays. simpl. apply set_eq. intros x.
    rewrite elem_of_difference, elem_of_union, !elem_of_singleton.
    split; [intros [[->| ->] ?]; done|intros ->; split; [by right|done]]. }
  rewrite decide_False.
  2:{ intros H.
      assert (UART_OVERLAY ∈ ({[ "other" ]} : gset string)) as Hin.
      { rewrite H. apply elem_of_union_l. by apply elem_of_singleton. }
      by apply elem_of_singleton in Hin. }
  assert (iter {[ "other" ]} = ["other"]) as ->.
  { apply Permutation_singleton_r. rewrite (Hiter {[ "other" ]}).
    unfold iteration_of. by rewrite elements_singleton. }
  reflexivity.
Qed.

Lemma control_uart_disable_keeps_other_witness :
  control_uart elements "disable" (initial example_env remote_with_other)
  = (Return (),
     {| env := example_env;
        cloud := apply_call (device_update (Some "5") (quoted "other")) remote_with_other;
        calls := reads example_env ++ [device_update (Some "5") (quoted "other")];
        stdout := [msg_device_dt_overlay (Some {[ UART_OVERLAY; "other" ]});
                   msg_fleet_dt_overlay (Some {[ "vc4-kms-v3d" ]});
                   msg_updated (quoted "other"); msg_uart0 "disable"] |}).
Proof.
  apply (control_uart_disable_keeps_other elements example_env remote_with_other
           (Some "5") (Some "2") (Some {[ "vc4-kms-v3d" ]})).
  - apply elements_iteration_order.
  - vm_compute. reflexivity.
  - vm_compute. reflexivity.
Defined.

(** C10: the empty set is not read back.  Line 158 writes the empty string
    for the empty set; lines 104-107 read the empty string as the set whose
    one element is the empty string, which is not the empty set. *)
Theorem empty_set_not_read_back :
  dt_overlay_string_of (elements (∅ : gset string)) = EmptyString
  ∧ parse_dtoverlay_value (dt_overlay_string_of (elements (∅ : gset string)))
    = Return {[ EmptyString ]}
  ∧ ({[ EmptyString ]} : gset string) ≠ ∅.
Proof.
  rewrite elements_empty. split; [done|]. split; [done|].
  apply singleton_not_empty.
Qed.

(** C7: round trip.  For a set [S] that is not empty and whose elements are
    alphanumeric-hyphen tokens, reading (lines 104-107) what line 158 writes
    for [S], in whichever order [l] the set is iterated, gives [S] back. *)
Theorem decode_encode_round_trip (S : gset string) (l : list string) :
  iteration_of S l →
  S ≠ ∅ →
  (∀ tok, tok ∈ S → is_token tok = true) →
  parse_dtoverlay_value (dt_overlay_string_of l) = Return S.
Proof.
  unfold iteration_of. intros Hl Hne Htok.
  assert (∀ tok, tok ∈ l → is_token tok = true) as Htok'.
  { intros tok Hin. apply Htok. rewrite Hl in Hin. by apply elem_of_elements in Hin. }
  assert (filter (λ tok, truthy tok = true) l = l) as Hfil.
  { apply filter_truthy_all, Forall_forall. intros tok Hin. apply token_truthy. auto. }
  rewrite parse_written.
  - rewrite Hfil, Hl. by rewrite list_to_set_elements_L.
  - apply Forall_forall. intros tok Hin. apply token_plain. auto.
  - rewrite Hfil. intros ->. symmetry in Hl. apply Permutation_nil_r in Hl.
    apply elements_empty_inv in Hl. by apply leibniz_equiv in Hl.
Qed.

Lemma decode_encode_round_trip_witness :
  parse_dtoverlay_value (dt_overlay_string_of ["disable-bt"; "vc4-kms-v3d"; "i2c1"])
  = Return {[ "i2c1"; "disable-bt"; "vc4-kms-v3d" ]}.
Proof.
  apply (decode_encode_round_trip {[ "i2c1"; "disable-bt"; "vc4-kms-v3d" ]}
           ["disable-bt"; "vc4-kms-v3d"; "i2c1"]).
  - unfold iteration_of. vm_compute elements.
    symmetry. apply (reverse_Permutation ["disable-bt"; "vc4-kms-v3d"; "i2c1"]).
  - intros H. apply (not_elem_of_empty (C:=gset string) "i2c1"). rewrite <-H.
    do 2 apply elem_of_union_l. by apply elem_of_singleton.
  - intros tok Hin. repeat (apply elem_of_union in Hin as [Hin|Hin]);
      apply elem_of_singleton in Hin as ->; reflexivity.
Defined.

(** C4: whatever the two variable lists hold, no call of a run writes to the
    application scope and the application's variables are left as they were;
    and when both scopes have an overlay set, the calls of the run are fixed
    by the device's set [d] alone: the three reads, then nothing when the
    change leaves [d] as it is, and else one update of the device's
    variable. *)
Theorem control_uart_device_scope_only (iter : gset string → list string)
    (control : string) (e : environ) (r : remote) :
  let w := (control_uart iter control (initial e r)).2 in
  Forall (λ c, is_application_write c = false) (calls w)
  ∧ application_vars (cloud w) = application_vars r
  ∧ ∀ (d a : gset string) (id aid : option string),
      control ∈ ["enable"; "disable"] →
      find_dtoverlay_config (device_vars r) = Return (Some d, id) →
      find_dtoverlay_config (application_vars r) = Return (Some a, aid) →
      calls w
      = reads e ++
        (if decide (new_overlays control d = d) then []
         else [device_update id (dt_overlay_string_of (iter (new_overlays control d)))]).
Proof.
  simpl. destruct (decide (control ∈ ["enable"; "disable"])) as [Hc|Hc].
  - rewrite control_uart_run by done. unfold run_from.
    destruct (find_dtoverlay_config (device_vars r)) as [[d id]|ex];
      [|by repeat constructor].
    destruct (find_dtoverlay_config (application_vars r)) as [[a aid]|ex];
      [|by repeat constructor].
    destruct d as [d|], a as [a|]; simpl; try case_decide; simpl; unfold reads;
      (split; [by repeat constructor|split; [done|]]);
      intros d' a' id' aid' _ ??; simplify_eq;
      first [by rewrite decide_True by done|by rewrite decide_False by done].
  - unfold control_uart. rewrite bool_decide_eq_false_2 by done. simpl.
    split; [constructor|]. split; [done|]. by intros.
Qed.

Lemma control_uart_device_scope_only_witness :
  calls (control_uart elements "disable" (initial example_env remote_with_other)).2
  = reads example_env ++ [device_update (Some "5") (quoted "other")].
Proof.
  etrans.
  - apply (proj2 (proj2 (control_uart_device_scope_only elements "disable" example_env
                           remote_with_other))
             {[ UART_OVERLAY; "other" ]} {[ "vc4-kms-v3d" ]} (Some "5") (Some "2")).
    + right. left.
    + vm_compute. reflexivity.
    + vm_compute. reflexivity.
  - vm_compute. reflexivity.
Defined.

(** C5, as stated, fails: both variables have the overlay name and the value
    of the last one decodes, and yet [find_dtoverlay_config] does not return
    the set and the identifier of the last one: [json.loads] raises on the
    first. *)
Lemma find_dtoverlay_config_malformed_earlier :
  Forall (λ v, is_dtoverlay_name (var_name v) = true) vars_malformed_first
  ∧ parse_dtoverlay_value "x" = Return {[ "x" ]}
  ∧ find_dtoverlay_config vars_malformed_first = Raise JSONDecodeError
  ∧ find_dtoverlay_config vars_malformed_first ≠ Return (Some {[ "x" ]}, Some "2").
Proof.
  assert (find_dtoverlay_config vars_malformed_first = Raise JSONDecodeError) as H
    by (vm_compute; reflexivity).
  split; [by repeat constructor|]. split; [done|]. split; [done|]. by rewrite H.
Qed.

(** C5, amended: in a list whose overlay variables all have values that
    decode, the set and the identifier [find_dtoverlay_config] returns are
    those of the last variable with one of the two names, whatever comes
    before it; and a run of [control_uart] that writes then updates the
    variable of that identifier. *)
Theorem find_dtoverlay_config_last_match (pre post : list variable) (v : variable)
    (S : gset string) :
  overlays_decode pre →
  is_dtoverlay_name (var_name v) = true →
  parse_dtoverlay_value (var_value v) = Return S →
  no_dtoverlay post →
  find_dtoverlay_config (pre ++ v :: post) = Return (Some S, Some (pretty (var_id v)))
  ∧ ∀ (iter : gset string → list string) (control : string) (e : environ)
      (app : list variable) (a : option (gset string)) (aid : option string),
      control ∈ ["enable"; "disable"] →
      find_dtoverlay_config app = Return (a, aid) →
      new_overlays control S ≠ S →
      calls (control_uart iter control
               (initial e {| device_vars := pre ++ v :: post;
                             application_vars := app |})).2
      = reads e ++ [device_update (Some (pretty (var_id v)))
                      (dt_overlay_string_of (iter (new_overlays control S)))].
Proof.
  intros Hpre Hv HS Hpost.
  assert (find_dtoverlay_config (pre ++ v :: post)
          = Return (Some S, Some (pretty (var_id v)))) as Hfind.
  { unfold find_dtoverlay_config.
    destruct (find_loop_prefix pre None None Hpre) as (c & i & ->).
    simpl. rewrite Hv, HS. simpl. by apply find_loop_no_match. }
  split; [done|].
  intros iter control e app a aid Hc Ha Hnew.
  rewrite control_uart_run by done. simpl. rewrite Hfind, Ha. simpl.
  by rewrite decide_False.
Qed.

Lemma find_dtoverlay_config_last_match_witness :
  find_dtoverlay_config vars_two_overlays
  = Return (Some {[ "i2c1"; "disable-bt" ]}, Some (pretty 2%N)).
Proof.
  apply (proj1 (find_dtoverlay_config_last_match
                  [var 1 "BALENA_HOST_CONFIG_dtoverlay" "vc4-kms-v3d"]
                  [var 3 "GPS_CUSTOM_BAUD" "9600"]
                  (var 2 "BALENA_HOST_CONFIG_dtoverlay"
                     (quoted "i2c1" +:+ "," +:+ quoted "disable-bt"))
                  {[ "i2c1"; "disable-bt" ]}
                  ltac:(repeat constructor; intros _; by eexists)
                  eq_refl
                  ltac:(vm_compute; reflexivity)
                  ltac:(by repeat constructor))).
Defined.

Lemma truthy_iff (s : string) : truthy s = true ↔ s ≠ EmptyString.
Proof. by destruct s. Qed.

(** What the first enable writes is read back as the set it was written for,
    less the empty token. *)
Lemma parse_enable_written (S : gset string) (l : list string) :
  iteration_of (S ∪ {[ UART_OVERLAY ]}) l →
  (∀ tok, tok ∈ S → is_plain tok = true) →
  parse_dtoverlay_value (dt_overlay_string_of l)
  = Return ((S ∪ {[ UART_OVERLAY ]}) ∖ {[ EmptyString ]}).
Proof.
  unfold iteration_of. intros Hl Hplain.
  assert (∀ tok, tok ∈ l ↔ tok ∈ S ∪ {[ UART_OVERLAY ]}) as Hin.
  { intros tok. by rewrite Hl, elem_of_elements. }
  rewrite parse_written.
  - f_equal. apply set_eq. intros tok.
    rewrite elem_of_list_to_set, list_elem_of_filter, Hin, truthy_iff.
    rewrite elem_of_difference, elem_of_singleton. tauto.
  - apply Forall_forall. intros tok [Htok|Htok]%Hin%elem_of_union; [by apply Hplain|].
    by apply elem_of_singleton in Htok as ->.
  - intros Hnil. assert (UART_OVERLAY ∈ filter (λ tok, truthy tok = true) l) as H.
    { apply list_elem_of_filter. split; [done|]. apply Hin, overlay_in_union. }
    rewrite Hnil in H. by apply elem_of_nil in H.
Qed.

(** C8, amended: enable is idempotent across two runs when the tokens of the
    current set [S] hold no double quote, no backslash and no control
    character.  When [S] lacks the overlay, the first run writes the set
    with the overlay added (an update of the device's variable, or a create
    when the set came from the application); the second run, on the service
    the first run left, finds a current set that has the overlay, so the
    change leaves it as it is: it makes the three reads and no write and
    reports that no update is needed. *)
Theorem control_uart_enable_twice (iter1 iter2 : gset string → list string)
    (e : environ) (r : remote) (d a : option (gset string)) (id aid : option string)
    (device_overlay_exists : bool) (S : gset string) :
  iteration_order iter1 →
  find_dtoverlay_config (device_vars r) = Return (d, id) →
  find_dtoverlay_config (application_vars r) = Return (a, aid) →
  current_overlays d a = (device_overlay_exists, Some S) →
  (∀ tok, tok ∈ S → is_plain tok = true) →
  let w1 := (control_uart iter1 "enable" (initial e r)).2 in
  (UART_OVERLAY ∉ S →
   calls w1 = reads e ++ [write_call e device_overlay_exists id
                            (dt_overlay_string_of (iter1 (S ∪ {[ UART_OVERLAY ]})))])
  ∧ ∃ (d' : option (gset string)) (exists' : bool) (cur' : gset string),
      current_overlays d' a = (exists', Some cur')
      ∧ (UART_OVERLAY ∉ S → cur' = (S ∪ {[ UART_OVERLAY ]}) ∖ {[ EmptyString ]})
      ∧ new_overlays "enable" cur' = cur'
      ∧ control_uart iter2 "enable" (initial e (cloud w1))
        = (Return (),
           {| env := e; cloud := cloud w1; calls := reads e;
              stdout := [msg_device_dt_overlay d'; msg_fleet_dt_overlay a;
                         msg_no_update_needed] |}).
Proof.
  intros Hiter Hd Ha Hcur Hplain. simpl.
  pose proof enable_valid as Hc.
  rewrite (control_uart_run iter1), Hd, Ha by done. simpl. rewrite Hcur.
  destruct (decide (UART_OVERLAY ∈ S)) as [Hin|Hin].
  - assert (new_overlays "enable" S = S) as Hnew.
    { unfold new_overlays. simpl. by apply union_overlay_in. }
    rewrite decide_True by done. simpl. split; [done|].
    exists d, device_overlay_exists, S. split; [done|]. split; [done|]. split; [done|].
    rewrite control_uart_run, Hd, Ha by done. simpl. rewrite Hcur.
    by rewrite decide_True.
  - assert (new_overlays "enable" S = S ∪ {[ UART_OVERLAY ]}) as Hnew by done.
    rewrite decide_False by (rewrite Hnew; by apply union_overlay_notin).
    rewrite Hnew. simpl. split; [done|].
    set (s := dt_overlay_string_of (iter1 (S ∪ {[ UART_OVERLAY ]}))).
    set (S' := (S ∪ {[ UART_OVERLAY ]}) ∖ {[ EmptyString ]}).
    assert (parse_dtoverlay_value s = Return S') as Hs
      by (apply parse_enable_written; [apply Hiter|done]).
    assert (new_overlays "enable" S' = S') as Hnew'.
    { unfold new_overlays. simpl.
      apply union_overlay_in, elem_of_difference. split; [apply overlay_in_union|].
      by rewrite elem_of_singleton. }
    exists (Some S'), true, S'. split; [done|]. split; [done|]. split; [done|].
    assert (find_dtoverlay_config
              (device_vars (apply_call (write_call e device_overlay_exists id s) r))
            = Return (Some S', match device_overlay_exists with
                               | true => id
                               | false => Some (pretty (fresh_id r))
                               end)) as Hd'.
    { destruct device_overlay_exists; simpl.
      - destruct d as [d|]; [|by destruct a]. simpl in Hcur. simplify_eq.
        assert (is_Some id) as [x ->].
        { eapply (find_loop_some_id _ None _ None); [|exact Hd|by eexists].
          by intros ?%is_Some_None. }
        eapply find_loop_after_update; [done..|]. done.
      - destruct d as [d|]; [done|]. apply find_none_no_match in Hd.
        by apply find_after_create. }
    assert (application_vars (apply_call (write_call e device_overlay_exists id s) r)
            = application_vars r) as Ha' by (by destruct device_overlay_exists).
    rewrite control_uart_run, Hd', Ha', Ha by done. simpl.
    by rewrite decide_True.
Qed.

Lemma control_uart_enable_twice_witness :
  let w1 := (control_uart elements "enable" (initial example_env remote_fleet_only)).2 in
  (UART_OVERLAY ∉ ({[ "vc4-kms-v3d" ]} : gset string) →
   calls w1 = reads example_env ++
              [write_call example_env false None
                 (dt_overlay_string_of
                    (elements ({[ "vc4-kms-v3d" ]} ∪ {[ UART_OVERLAY ]} : gset string)))])
  ∧ ∃ (d' : option (gset string)) (exists' : bool) (cur' : gset string),
      current_overlays d' (Some {[ "vc4-kms-v3d" ]}) = (exists', Some cur')
      ∧ (UART_OVERLAY ∉ ({[ "vc4-kms-v3d" ]} : gset string) →
         cur' = ({[ "vc4-kms-v3d" ]} ∪ {[ UART_OVERLAY ]}) ∖ {[ EmptyString ]})
      ∧ new_overlays "enable" cur' = cur'
      ∧ control_uart (reverse ∘ elements) "enable" (initial example_env (cloud w1))
        = (Return (),
           {| env := example_env; cloud := cloud w1; calls := reads example_env;
              stdout := [msg_device_dt_overlay d';
                         msg_fleet_dt_overlay (Some {[ "vc4-kms-v3d" ]});
                         msg_no_update_needed] |}).
Proof.
  apply (control_uart_enable_twice elements (reverse ∘ elements) example_env
           remote_fleet_only None (Some {[ "vc4-kms-v3d" ]}) None (Some "2") false
           {[ "vc4-kms-v3d" ]}).
  - apply elements_iteration_order.
  - reflexivity.
  - reflexivity.
  - reflexivity.
  - intros tok Htok. by apply elem_of_singleton in Htok as ->.
Defined.

(** C8, as stated, fails: the current set of this device is not empty; the
    first enable writes it with the overlay added; the second enable does not
    compute a set equal to the current one: [json.loads] raises on the value
    the first run wrote, in either order of the two tokens. *)
Lemma control_uart_enable_twice_quote :
  let x := "x" +:+ String dquote EmptyString in
  let w1 := (control_uart elements "enable" (initial example_env remote_with_quote)).2 in
  let w1' := (control_uart (reverse ∘ elements) "enable"
                (initial example_env remote_with_quote)).2 in
  find_dtoverlay_config (device_vars remote_with_quote) = Return (Some {[ x ]}, Some "5")
  ∧ calls w1 = reads example_env ++
               [device_update (Some "5") (dt_overlay_string_of [UART_OVERLAY; x])]
  ∧ (control_uart elements "enable" (initial example_env (cloud w1))).1
    = Raise JSONDecodeError
  ∧ calls w1' = reads example_env ++
                [device_update (Some "5") (dt_overlay_string_of [x; UART_OVERLAY])]
  ∧ (control_uart elements "enable" (initial example_env (cloud w1'))).1
    = Raise JSONDecodeError.
Proof. vm_compute. repeat split. Qed.

(** * More on [find_dtoverlay_config] *)

(** What the decoder returns holds the elements seen so far, and one more
    when it is inside a literal. *)
Lemma json_array_run_length (s : string) (st : json_state) (seen l : list string) :
  json_array_run st seen s = Return l →
  match st with
  | InString _ | InEscape _ => S (length seen)
  | _ => length seen
  end ≤ length l.
Proof.
  revert st seen. induction s as [|c s IH]; intros st seen.
  - destruct st; simpl; intros; simplify_eq. by rewrite length_reverse.
  - destruct st; simpl; repeat case_match; intros Hrun; simplify_eq;
      apply IH in Hrun; simpl in Hrun; lia.
Qed.

(** A set read by lines 104-107 is never empty. *)
Lemma parse_not_empty (value : string) (S : gset string) :
  parse_dtoverlay_value value = Return S → S ≠ ∅.
Proof.
  unfold parse_dtoverlay_value. case_match eqn:E.
  - destruct value as [|c value]; [done|]. apply andb_true_iff in E as [E _].
    simpl in E. case_decide; [subst c|done].
    unfold json_loads_list. rewrite app_String. simpl.
    destruct (json_array_run _ _ _) as [l|] eqn:Hl; [|done].
    apply json_array_run_length in Hl. simpl in Hl.
    intros [= <-]. destruct l as [|x l]; [simpl in Hl; lia|].
    intros H. apply (not_elem_of_empty (C:=gset string) x). rewrite <-H.
    apply elem_of_list_to_set. by left.
  - intros [= <-]. apply singleton_not_empty.
Qed.

Lemma find_loop_result (vars : list variable) (c0 c : option (gset string))
    (i0 i : option string) :
  find_dtoverlay_loop vars c0 i0 = Return (c, i) →
  (c = c0 ∧ i = i0 ∧ no_dtoverlay vars)
  ∨ ∃ (S : gset string) (v : variable),
      c = Some S ∧ i = Some (pretty (var_id v)) ∧ v ∈ vars
      ∧ is_dtoverlay_name (var_name v) = true
      ∧ parse_dtoverlay_value (var_value v) = Return S.
Proof.
  revert c0 i0. induction vars as [|v vars IH]; intros c0 i0; simpl.
  - intros [= <- <-]. left. by repeat split; [..|constructor].
  - destruct (is_dtoverlay_name (var_name v)) eqn:Hv.
    + destruct (parse_dtoverlay_value (var_value v)) as [s|] eqn:Hs; simpl; [|done].
      intros [(-> & -> & Hno)|(S & u & -> & -> & Hin & Hu & HS)]%IH; right.
      * exists s, v. repeat split; [by left|done..].
      * exists S, u. repeat split; [by right|done..].
    + intros [(-> & -> & Hno)|(S & u & -> & -> & Hin & Hu & HS)]%IH.
      * left. repeat split. by constructor.
      * right. exists S, u. repeat split; [by right|done..].
Qed.

(** X1: what [find_dtoverlay_config] returns.  Either no variable has one of
    the two names, and both results are [None]; or the set and the
    identifier come together, from one variable of the list with one of the
    two names: the identifier is that variable's, the set is its value
    decoded, and the set is not empty. *)
Theorem find_dtoverlay_config_result (vars : list variable) (c : option (gset string))
    (i : option string) :
  find_dtoverlay_config vars = Return (c, i) →
  (c = None ∧ i = None ∧ no_dtoverlay vars)
  ∨ ∃ (S : gset string) (v : variable),
      c = Some S ∧ i = Some (pretty (var_id v)) ∧ v ∈ vars
      ∧ is_dtoverlay_name (var_name v) = true
      ∧ parse_dtoverlay_value (var_value v) = Return S
      ∧ S ≠ ∅.
Proof.
  intros [?|(S & v & ? & ? & ? & ? & HS)]%find_loop_result; [by left|right].
  exists S, v. repeat split; try done. by eapply parse_not_empty.
Qed.

Lemma find_dtoverlay_config_result_witness :
  (Some ({[ "i2c1"; "disable-bt" ]} : gset string) = None ∧ Some (pretty 2%N) = None
   ∧ no_dtoverlay vars_two_overlays)
  ∨ ∃ (S : gset string) (v : variable),
      Some ({[ "i2c1"; "disable-bt" ]} : gset string) = Some S
      ∧ Some (pretty 2%N) = Some (pretty (var_id v)) ∧ v ∈ vars_two_overlays
      ∧ is_dtoverlay_name (var_name v) = true
      ∧ parse_dtoverlay_value (var_value v) = Return S
      ∧ S ≠ ∅.
Proof.
  apply (find_dtoverlay_config_result vars_two_overlays). vm_compute. reflexivity.
Defined.

(** X2: variables with other names do not count.  Dropping them from the
    list changes nothing in what [find_dtoverlay_config] returns or
    raises. *)
Theorem find_dtoverlay_config_filter (vars : list variable) :
  find_dtoverlay_config (filter (λ v, is_dtoverlay_name (var_name v) = true) vars)
  = find_dtoverlay_config vars.
Proof.
  unfold find_dtoverlay_config. generalize (@None (gset string)) (@None string).
  induction vars as [|v vars IH]; intros c i; [done|].
  destruct (is_dtoverlay_name (var_name v)) eqn:Hv.
  - rewrite filter_cons_True by done. simpl. rewrite Hv.
    destruct (parse_dtoverlay_value (var_value v)); simpl; [apply IH|done].
  - rewrite filter_cons_False by (by rewrite Hv). simpl. rewrite Hv. apply IH.
Qed.



(** * More on the written value *)

Lemma parse_written_empty (l : list string) :
  filter (λ tok, truthy tok = true) l = [] →
  parse_dtoverlay_value (dt_overlay_string_of l) = Return {[ EmptyString ]}.
Proof. unfold dt_overlay_string_of. by intros ->. Qed.

(** What lines 104-107 read of what line 158 writes for a set. *)
Lemma parse_written_set (S : gset string) (l : list string) :
  iteration_of S l →
  (∀ tok, tok ∈ S → is_plain tok = true) →
  parse_dtoverlay_value (dt_overlay_string_of l)
  = Return (if decide (S ⊆ {[ EmptyString ]}) then {[ EmptyString ]}
            else S ∖ {[ EmptyString ]}).
Proof.
  unfold iteration_of. intros Hl Hplain.
  assert (∀ tok, tok ∈ l ↔ tok ∈ S) as Hin.
  { intros tok. by rewrite Hl, elem_of_elements. }
  destruct (filter (λ tok, truthy tok = true) l) as [|x l'] eqn:Hfil.
  - rewrite parse_written_empty by done. rewrite decide_True; [done|].
    intros tok Htok%Hin. apply elem_of_singleton.
    destruct (truthy tok) eqn:Ht; [|by destruct tok].
    exfalso. eapply (filter_nil_not_elem_of (λ tok, truthy tok = true));
      [exact Hfil|exact Ht|exact Htok].
  - assert (x ∈ filter (λ tok, truthy tok = true) l) as Hx by (rewrite Hfil; by left).
    apply list_elem_of_filter in Hx as [Hx Hxl].
    rewrite parse_written.
    + rewrite decide_False.
      2:{ intros Hsub. apply Hin, Hsub, elem_of_singleton in Hxl. by subst x. }
      f_equal. apply set_eq. intros tok.
      rewrite elem_of_list_to_set, list_elem_of_filter, Hin, truthy_iff.
      rewrite elem_of_difference, elem_of_singleton. tauto.
    + apply Forall_forall. intros tok Htok. by apply Hplain, Hin.
    + by rewrite Hfil.
Qed.

(** X4: what is read back of what was written, for any set.  For a set [S]
    of tokens with no double quote, backslash or control character, iterated
    in any order [l]: when [S] has a token that is not empty, lines 104-107
    read the value line 158 writes as [S] without the empty token; when it
    has none ([S] is empty or holds the empty token alone), they read it as
    the set that holds the empty token alone. *)
Theorem decode_encode_any_set (S : gset string) (l : list string) :
  iteration_of S l →
  (∀ tok, tok ∈ S → is_plain tok = true) →
  parse_dtoverlay_value (dt_overlay_string_of l)
  = Return (if decide (S ⊆ {[ EmptyString ]}) then {[ EmptyString ]}
            else S ∖ {[ EmptyString ]}).
Proof. apply parse_written_set. Qed.

Lemma decode_encode_any_set_witness :
  parse_dtoverlay_value (dt_overlay_string_of ["i2c1"; EmptyString])
  = Return (if decide (({[ EmptyString; "i2c1" ]} : gset string) ⊆ {[ EmptyString ]})
            then {[ EmptyString ]}
            else {[ EmptyString; "i2c1" ]} ∖ {[ EmptyString ]}).
Proof.
  apply (decode_encode_any_set {[ EmptyString; "i2c1" ]} ["i2c1"; EmptyString]).
  - unfold iteration_of. vm_compute elements. reflexivity.
  - intros tok [Htok|Htok]%elem_of_union; apply elem_of_singleton in Htok as ->;
      reflexivity.
Defined.

(** * More on [control_uart] *)

(** The calls and the service after a run, whatever the inputs. *)
Lemma control_uart_invalid (iter : gset string → list string) (control : string)
    (e : environ) (r : remote) :
  control ∉ ["enable"; "disable"] →
  control_uart iter control (initial e r) = (Raise (unrecognized control), initial e r).
Proof. intros Hc. unfold control_uart. by rewrite bool_decide_eq_false_2. Qed.

(** X5: one write at most.  Whatever [control], the environment and the
    service are, a run of [control_uart] makes at most one call that
    writes. *)
Theorem control_uart_one_write (iter : gset string → list string) (control : string)
    (e : environ) (r : remote) :
  length (filter (λ c, is_write c = true)
            (calls (control_uart iter control (initial e r)).2)) ≤ 1.
Proof.
  destruct (decide (control ∈ ["enable"; "disable"])) as [Hc|Hc].
  - rewrite control_uart_run by done. unfold run_from.
    destruct (find_dtoverlay_config (device_vars r)) as [[d id]|ex]; [|simpl; lia].
    destruct (find_dtoverlay_config (application_vars r)) as [[a aid]|ex]; [|simpl; lia].
    destruct (current_overlays d a) as [b [cur|]]; [|simpl; lia].
    case_decide; [simpl; lia|]. destruct b; simpl; lia.
  - rewrite control_uart_invalid by done. simpl. lia.
Qed.



(** X7: what a write is aimed at.  A create is issued only for a device with no
    variable of either name, under the device's UUID and the name
    [BALENA_HOST_CONFIG_dtoverlay]; an update is issued only with the
    identifier of a variable of the device that has one of the two names.
    Whatever the inputs. *)
Theorem control_uart_write_target (iter : gset string → list string) (control : string)
    (e : environ) (r : remote) (c : call) :
  c ∈ calls (control_uart iter control (initial e r)).2 →
  match c with
  | device_create uuid name _ =>
      no_dtoverlay (device_vars r) ∧ uuid = BALENA_DEVICE_UUID e
      ∧ name = "BALENA_HOST_CONFIG_dtoverlay"
  | device_update id _ =>
      ∃ v, v ∈ device_vars r ∧ is_dtoverlay_name (var_name v) = true
           ∧ id = Some (pretty (var_id v))
  | application_update _ _ | application_create _ _ _ => False
  | _ => True
  end.
Proof.
  destruct (decide (control ∈ ["enable"; "disable"])) as [Hc|Hc].
  2:{ rewrite control_uart_invalid by done. by intros ?%elem_of_nil. }
  rewrite control_uart_run by done. unfold run_from.
  destruct (find_dtoverlay_config (device_vars r)) as [[d id]|ex] eqn:Hd.
  2:{ simpl. intros Hin. repeat (apply elem_of_cons in Hin as [->|Hin]; [done|]).
      by apply elem_of_nil in Hin. }
  assert (c ∈ reads e → match c with
                        | device_create _ _ _ | device_update _ _
                        | application_update _ _ | application_create _ _ _ => False
                        | _ => True
                        end) as Hreads.
  { unfold reads. intros Hin. repeat (apply elem_of_cons in Hin as [->|Hin]; [done|]).
    by apply elem_of_nil in Hin. }
  assert (c ∈ reads e → match c with
                        | device_create uuid name _ =>
                            no_dtoverlay (device_vars r) ∧ uuid = BALENA_DEVICE_UUID e
                            ∧ name = "BALENA_HOST_CONFIG_dtoverlay"
                        | device_update id _ =>
                            ∃ v, v ∈ device_vars r ∧ is_dtoverlay_name (var_name v) = true
                                 ∧ id = Some (pretty (var_id v))
                        | application_update _ _ | application_create _ _ _ => False
                        | _ => True
                        end) as Hreads'.
  { intros Hin%Hreads. by destruct c. }
  destruct (find_dtoverlay_config (application_vars r)) as [[a aid]|ex]; [|done].
  destruct (current_overlays d a) as [b [cur|]] eqn:Hcur; [|done].
  case_decide; [done|]. simpl.
  intros Hin. do 3 (apply elem_of_cons in Hin as [->|Hin]; [done|]).
  apply list_elem_of_singleton in Hin as ->.
  apply find_loop_result in Hd.
  destruct b; simpl.
  - destruct d as [d|]; [|by destruct a].
    destruct Hd as [(? & _)|(S & v & ? & ? & ? & ? & _)]; [done|]. by exists v.
  - destruct d as [d|]; [done|]. destruct Hd as [(_ & _ & Hno)|(S & v & ? & _)]; done.
Qed.

Lemma control_uart_write_target_witness :
  ∃ v, v ∈ device_vars remote_with_other ∧ is_dtoverlay_name (var_name v) = true
       ∧ Some "5" = Some (pretty (var_id v)).
Proof.
  apply (control_uart_write_target elements "disable" example_env remote_with_other
           (device_update (Some "5") (quoted "other"))).
  vm_compute. do 3 right. left.
Defined.

(** * What a run leaves for the next one *)

Lemma overlay_in_new (control : string) (S : gset string) :
  control ∈ ["enable"; "disable"] →
  UART_OVERLAY ∈ new_overlays control S ↔ control = "enable".
Proof.
  intros [->|Hc]%elem_of_cons.
  - split; [done|]. intros _. apply overlay_in_union.
  - apply list_elem_of_singleton in Hc as ->. split; [|done].
    unfold new_overlays. simpl. rewrite elem_of_difference, elem_of_singleton. tauto.
Qed.

Lemma new_overlays_fixed (control : string) (S : gset string) :
  control ∈ ["enable"; "disable"] →
  (UART_OVERLAY ∈ S ↔ control = "enable") →
  new_overlays control S = S.
Proof.
  intros [->|Hc]%elem_of_cons HS.
  - apply union_overlay_in. by apply HS.
  - apply list_elem_of_singleton in Hc as ->. unfold new_overlays. simpl.
    apply set_eq. intros x. rewrite elem_of_difference, elem_of_singleton.
    split; [tauto|]. intros Hx. split; [done|]. intros ->. by apply HS in Hx.
Qed.

Lemma new_overlays_plain (control : string) (S : gset string) :
  (∀ tok, tok ∈ S → is_plain tok = true) →
  ∀ tok, tok ∈ new_overlays control S → is_plain tok = true.
Proof.
  intros HS tok. unfold new_overlays. case_bool_decide.
  - intros [?|Htok%elem_of_singleton]%elem_of_union; [by apply HS|by subst tok].
  - intros [? _]%elem_of_difference. by apply HS.
Qed.

(** After the write of a run, the device has an overlay variable, and its
    value is the value written. *)
Lemma find_after_write (e : environ) (r : remote) (d a : option (gset string))
    (id : option string) (device_overlay_exists : bool) (S S' : gset string)
    (s : string) :
  find_dtoverlay_config (device_vars r) = Return (d, id) →
  current_overlays d a = (device_overlay_exists, Some S) →
  parse_dtoverlay_value s = Return S' →
  ∃ id', find_dtoverlay_config
           (device_vars (apply_call (write_call e device_overlay_exists id s) r))
         = Return (Some S', id').
Proof.
  intros Hd Hcur Hs. destruct device_overlay_exists; simpl.
  - destruct d as [d|]; [|by destruct a].
    assert (is_Some id) as [x ->].
    { eapply (find_loop_some_id _ None _ None); [|exact Hd|by eexists].
      by intros ?%is_Some_None. }
    exists (Some x). eapply find_loop_after_update; [done..|]. done.
  - destruct d as [d|]; [done|]. apply find_none_no_match in Hd.
    eexists. by apply find_after_create.
Qed.

(** A run on tokens that are plain returns, and the current set of the next
    run has the overlay exactly when the run was an enable. *)
Lemma control_uart_effect (iter : gset string → list string) (control : string)
    (e : environ) (r : remote) (d a : option (gset string)) (id aid : option string)
    (device_overlay_exists : bool) (S : gset string) :
  iteration_order iter →
  control ∈ ["enable"; "disable"] →
  find_dtoverlay_config (device_vars r) = Return (d, id) →
  find_dtoverlay_config (application_vars r) = Return (a, aid) →
  current_overlays d a = (device_overlay_exists, Some S) →
  (∀ tok, tok ∈ S → is_plain tok = true) →
  ∃ (w' : world) (d' : option (gset string)) (id' : option string) (exists' : bool)
    (cur' : gset string),
    control_uart iter control (initial e r) = (Return (), w')
    ∧ find_dtoverlay_config (device_vars (cloud w')) = Return (d', id')
    ∧ application_vars (cloud w') = application_vars r
    ∧ current_overlays d' a = (exists', Some cur')
    ∧ (UART_OVERLAY ∈ cur' ↔ control = "enable")
    ∧ (∀ tok, tok ∈ cur' → is_plain tok = true).
Proof.
  intros Hiter Hc Hd Ha Hcur Hplain.
  rewrite control_uart_run, Hd, Ha by done. simpl. rewrite Hcur.
  pose proof (overlay_in_new control S Hc) as Hnew.
  pose proof (new_overlays_plain control S Hplain) as Hplain'.
  case_decide as Heq.
  - eexists _, d, id, device_overlay_exists, S. repeat split; try done.
    + by rewrite <-Heq, Hnew.
    + by rewrite <-Hnew, Heq.
  - set (new := new_overlays control S) in *.
    set (s := dt_overlay_string_of (iter new)).
    set (S' := if decide (new ⊆ {[ EmptyString ]}) then {[ EmptyString ]}
               else new ∖ {[ EmptyString ]}).
    assert (parse_dtoverlay_value s = Return S') as Hs
      by (apply parse_written_set; [apply Hiter|done]).
    destruct (find_after_write e r d a id device_overlay_exists S S' s Hd Hcur Hs)
      as [id' Hd'].
    assert (application_vars (apply_call (write_call e device_overlay_exists id s) r)
            = application_vars r) as Ha' by (by destruct device_overlay_exists).
    eexists _, (Some S'), id', true, S'. repeat split; try done.
    + rewrite <-Hnew. unfold S'. case_decide as Hsub.
      * by intros Hin%elem_of_singleton.
      * by intros [? _]%elem_of_difference.
    + intros Hen. apply Hnew in Hen. unfold S'. case_decide as Hsub.
      * by apply Hsub, elem_of_singleton in Hen.
      * apply elem_of_difference. split; [done|]. by rewrite elem_of_singleton.
    + intros tok. unfold S'. case_decide.
      * intros Hin%elem_of_singleton. by subst tok.
      * intros [? _]%elem_of_difference. by apply Hplain'.
Qed.

(** X8: what a run establishes.  For [control] one of [enable] and
    [disable] and a current set whose tokens have no double quote, backslash
    or control character, the run returns, and on the service it leaves the
    current set of the next run (the device's, or else the application's)
    has the overlay exactly when [control] was [enable]. *)
Theorem control_uart_establishes (iter : gset string → list string) (control : string)
    (e : environ) (r : remote) (d a : option (gset string)) (id aid : option string)
    (device_overlay_exists : bool) (S : gset string) :
  iteration_order iter →
  control ∈ ["enable"; "disable"] →
  find_dtoverlay_config (device_vars r) = Return (d, id) →
  find_dtoverlay_config (application_vars r) = Return (a, aid) →
  current_overlays d a = (device_overlay_exists, Some S) →
  (∀ tok, tok ∈ S → is_plain tok = true) →
  ∃ (w' : world) (d' : option (gset string)) (id' : option string) (exists' : bool)
    (cur' : gset string),
    control_uart iter control (initial e r) = (Return (), w')
    ∧ find_dtoverlay_config (device_vars (cloud w')) = Return (d', id')
    ∧ find_dtoverlay_config (application_vars (cloud w')) = Return (a, aid)
    ∧ current_overlays d' a = (exists', Some cur')
    ∧ (UART_OVERLAY ∈ cur' ↔ control = "enable").
Proof.
  intros Hiter Hc Hd Ha Hcur Hplain.
  destruct (control_uart_effect iter control e r d a id aid device_overlay_exists S)
    as (w' & d' & id' & ex' & cur' & Hrun & Hd' & Ha' & Hcur' & Hin & _); try done.
  exists w', d', id', ex', cur'. repeat split; try done; try apply Hin.
  by rewrite Ha'.
Qed.

(** X9: the same [control] twice.  Under the hypotheses of X8, for enable
    and for disable alike, a second run with the same [control] on the
    service the first run left makes the three reads and no write, leaves
    the service as it found it, and reports that no update is needed. *)
Theorem control_uart_repeat (iter1 iter2 : gset string → list string) (control : string)
    (e : environ) (r : remote) (d a : option (gset string)) (id aid : option string)
    (device_overlay_exists : bool) (S : gset string) :
  iteration_order iter1 →
  control ∈ ["enable"; "disable"] →
  find_dtoverlay_config (device_vars r) = Return (d, id) →
  find_dtoverlay_config (application_vars r) = Return (a, aid) →
  current_overlays d a = (device_overlay_exists, Some S) →
  (∀ tok, tok ∈ S → is_plain tok = true) →
  let w1 := (control_uart iter1 control (initial e r)).2 in
  ∃ d' : option (gset string),
    control_uart iter2 control (initial e (cloud w1))
    = (Return (),
       {| env := e; cloud := cloud w1; calls := reads e;
          stdout := [msg_device_dt_overlay d'; msg_fleet_dt_overlay a;
                     msg_no_update_needed] |}).
Proof.
  intros Hiter Hc Hd Ha Hcur Hplain. simpl.
  destruct (control_uart_effect iter1 control e r d a id aid device_overlay_exists S)
    as (w' & d' & id' & ex' & cur' & Hrun & Hd' & Ha' & Hcur' & Hin & _); try done.
  rewrite Hrun. simpl. exists d'.
  rewrite control_uart_run, Hd', Ha', Ha by done. simpl. rewrite Hcur'.
  by rewrite decide_True by (by apply new_overlays_fixed).
Qed.

(** X10: when a run writes.  For [control] one of [enable] and [disable]
    and a current set [S], the run makes a write exactly when the overlay is
    not where [control] wants it: an enable when [S] lacks the overlay, a
    disable when [S] has it. *)
Theorem control_uart_writes_iff (iter : gset string → list string) (control : string)
    (e : environ) (r : remote) (d a : option (gset string)) (id aid : option string)
    (device_overlay_exists : bool) (S : gset string) :
  control ∈ ["enable"; "disable"] →
  find_dtoverlay_config (device_vars r) = Return (d, id) →
  find_dtoverlay_config (application_vars r) = Return (a, aid) →
  current_overlays d a = (device_overlay_exists, Some S) →
  (∃ c, c ∈ calls (control_uart iter control (initial e r)).2 ∧ is_write c = true)
  ↔ (control = "enable" ∧ UART_OVERLAY ∉ S) ∨ (control = "disable" ∧ UART_OVERLAY ∈ S).
Proof.
  intros Hc Hd Ha Hcur.
  rewrite control_uart_run, Hd, Ha by done. simpl. rewrite Hcur.
  assert (new_overlays control S = S
          ↔ ¬ ((control = "enable" ∧ UART_OVERLAY ∉ S)
               ∨ (control = "disable" ∧ UART_OVERLAY ∈ S))) as Hfix.
  { split.
    - intros Heq [[Hen Hin]|[Hdis Hin]].
      + apply Hin. rewrite <-Heq. by apply overlay_in_new.
      + rewrite <-Heq in Hin. apply overlay_in_new in Hin; [|done]. congruence.
    - intros Hnot. apply new_overlays_fixed; [done|]. split.
      + intros Hin. apply elem_of_cons in Hc as [?|Hc]; [done|].
        apply list_elem_of_singleton in Hc. destruct Hnot. by right.
      + intros Hen. destruct (decide (UART_OVERLAY ∈ S)); [done|].
        destruct Hnot. by left. }
  case_decide as Heq; simpl.
  - split.
    + intros (c & Hin & Hw). unfold reads in Hin.
      repeat (apply elem_of_cons in Hin as [->|Hin]; [done|]). by apply elem_of_nil in Hin.
    + intros H. by apply Hfix in Heq.
  - split.
    + intros _. destruct (decide ((control = "enable" ∧ UART_OVERLAY ∉ S)
                                  ∨ (control = "disable" ∧ UART_OVERLAY ∈ S)));
        [done|]. by apply Hfix in n.
    + intros _. eexists. split; [do 3 right; left|]. by destruct device_overlay_exists.
Qed.

Lemma control_uart_establishes_witness :
  ∃ (w' : world) (d' : option (gset string)) (id' : option string) (exists' : bool)
    (cur' : gset string),
    control_uart elements "disable" (initial example_env remote_with_other)
    = (Return (), w')
    ∧ find_dtoverlay_config (device_vars (cloud w')) = Return (d', id')
    ∧ find_dtoverlay_config (application_vars (cloud w'))
      = Return (Some {[ "vc4-kms-v3d" ]}, Some "2")
    ∧ current_overlays d' (Some {[ "vc4-kms-v3d" ]}) = (exists', Some cur')
    ∧ (UART_OVERLAY ∈ cur' ↔ "disable" = "enable").
Proof.
  apply (control_uart_establishes elements "disable" example_env remote_with_other
           (Some {[ UART_OVERLAY; "other" ]}) (Some {[ "vc4-kms-v3d" ]})
           (Some "5") (Some "2") true {[ UART_OVERLAY; "other" ]}).
  - apply elements_iteration_order.
  - apply disable_valid.
  - vm_compute. reflexivity.
  - vm_compute. reflexivity.
  - reflexivity.
  - intros tok [Htok|Htok]%elem_of_union; apply elem_of_singleton in Htok as ->;
      reflexivity.
Defined.

Lemma control_uart_repeat_witness :
  let w1 := (control_uart elements "disable" (initial example_env remote_with_other)).2 in
  ∃ d' : option (gset string),
    control_uart (reverse ∘ elements) "disable" (initial example_env (cloud w1))
    = (Return (),
       {| env := example_env; cloud := cloud w1; calls := reads example_env;
          stdout := [msg_device_dt_overlay d';
                     msg_fleet_dt_overlay (Some {[ "vc4-kms-v3d" ]});
                     msg_no_update_needed] |}).
Proof.
  apply (control_uart_repeat elements (reverse ∘ elements) "disable" example_env
           remote_with_other
           (Some {[ UART_OVERLAY; "other" ]}) (Some {[ "vc4-kms-v3d" ]})
           (Some "5") (Some "2") true {[ UART_OVERLAY; "other" ]}).
  - apply elements_iteration_order.
  - apply disable_valid.
  - vm_compute. reflexivity.
  - vm_compute. reflexivity.
  - reflexivity.
  - intros tok [Htok|Htok]%elem_of_union; apply elem_of_singleton in Htok as ->;
      reflexivity.
Defined.

Lemma control_uart_writes_iff_witness :
  (∃ c, c ∈ calls (control_uart elements "disable"
                     (initial example_env remote_with_other)).2
        ∧ is_write c = true)
  ↔ ("disable" = "enable" ∧ UART_OVERLAY ∉ ({[ UART_OVERLAY; "other" ]} : gset string))
    ∨ ("disable" = "disable" ∧ UART_OVERLAY ∈ ({[ UART_OVERLAY; "other" ]} : gset string)).
Proof.
  apply (control_uart_writes_iff elements "disable" example_env remote_with_other
           (Some {[ UART_OVERLAY; "other" ]}) (Some {[ "vc4-kms-v3d" ]})
           (Some "5") (Some "2") true {[ UART_OVERLAY; "other" ]}).
  - apply disable_valid.
  - vm_compute. reflexivity.
  - vm_compute. reflexivity.
  - reflexivity.
Defined.

(** * [detect_supported_hardware] *)

Lemma startswith_empty (s : string) : startswith EmptyString s = true.
Proof. by destruct s. Qed.

Lemma startswith_rstrip (sub s : string) (x : ascii) :
  last_char sub = Some x → is_space x = false →
  startswith sub (rstrip s) = startswith sub s.
Proof.
  intros Hlast Hx. revert s. induction sub as [|a sub IH]; intros s; [done|].
  destruct s as [|c s]; [reflexivity|]. simpl.
  destruct sub as [|b sub].
  - simpl in Hlast. simplify_eq. rewrite startswith_empty.
    destruct (rstrip s) as [|? ?]; [|by rewrite startswith_empty].
    destruct (is_space c) eqn:Hc; [|by rewrite startswith_empty].
    case_decide; [congruence|done].
  - specialize (IH Hlast s).
    destruct (rstrip s) as [|? ?] eqn:Hr.
    + rewrite <-IH. destruct (is_space c); simpl; by case_decide.
    + simpl. case_decide; [|done]. exact IH.
Qed.

(** A model name that ends in a character that is no white space is in the
    stripped line exactly when it is in the line. *)
Lemma contains_rstrip (sub s : string) (x : ascii) :
  last_char sub = Some x → is_space x = false →
  contains sub (rstrip s) = contains sub s.
Proof.
  intros Hlast Hx. induction s as [|c s IH].
  - done.
  - cbn [contains]. rewrite <-(startswith_rstrip sub (String c s) x), <-IH by done.
    simpl rstrip. destruct (rstrip s) as [|? ?] eqn:Hr.
    + destruct (is_space c); cbn [contains]; by rewrite ?orb_false_r, ?orb_diag.
    + done.
Qed.

Lemma rstrip_app_space (s : string) (c : ascii) :
  is_space c = true → rstrip (s +:+ String c EmptyString) = rstrip s.
Proof.
  intros Hc. induction s as [|a s IH].
  - simpl. by rewrite Hc.
  - rewrite app_String. simpl. by rewrite IH.
Qed.

Lemma readline_first_line (s : string) :
  readline s = first_line s ∨ readline s = first_line s +:+ String "010"%char EmptyString.
Proof.
  induction s as [|c s IH]; [by left|]. simpl. case_decide.
  - subst c. by right.
  - destruct IH as [->| ->]; [by left|by right].
Qed.

Lemma rstrip_readline (s : string) : rstrip (readline s) = rstrip (first_line s).
Proof.
  destruct (readline_first_line s) as [->| ->]; [done|]. by apply rstrip_app_space.
Qed.

(** [detect_supported_hardware], by the first line of the model file. *)
Lemma detect_supported_hardware_run (m : machine) :
  detect_supported_hardware m
  = match device_tree_model (hw m) with
    | None => (Failed raised_by_open, m)
    | Some text =>
        if contains "Raspberry Pi 3" (first_line text) then
          (Done (Some "Raspberry Pi 3"),
           {| hw := hw m; balena := balena m;
              trace := trace m ++ [printed (line_detected_model "Raspberry Pi 3")] |})
        else
          (Done None,
           {| hw := hw m; balena := balena m;
              trace := trace m
                       ++ [printed (line_uart_not_supported (rstrip (first_line text)))] |})
    end.
Proof.
  unfold detect_supported_hardware, mbind, P_bind, ask. simpl.
  destruct (device_tree_model (hw m)) as [text|]; [|done].
  rewrite rstrip_readline.
  rewrite (contains_rstrip "Raspberry Pi 3" (first_line text) "3"%char) by done.
  by destruct (contains "Raspberry Pi 3" (first_line text)).
Qed.

(** X11: which hardware is supported.  When the model file can be opened,
    [detect_supported_hardware] returns ["Raspberry Pi 3"] exactly when that
    name occurs in the first line of the file, and [None] otherwise: what
    follows the first line feed and the white space that ends the line do
    not count.  When the file cannot be opened it raises, and prints
    nothing. *)
Theorem detect_supported_hardware_first_line (m : machine) :
  detect_supported_hardware m
  = match device_tree_model (hw m) with
    | None => (Failed raised_by_open, m)
    | Some text =>
        if contains "Raspberry Pi 3" (first_line text) then
          (Done (Some "Raspberry Pi 3"),
           {| hw := hw m; balena := balena m;
              trace := trace m ++ [printed (line_detected_model "Raspberry Pi 3")] |})
        else
          (Done None,
           {| hw := hw m; balena := balena m;
              trace := trace m
                       ++ [printed (line_uart_not_supported (rstrip (first_line text)))] |})
    end.
Proof. apply detect_supported_hardware_run. Qed.

(** * [detect_serial_device] and the program *)

(** [detect_serial_device] from the start of the program, path by path. *)
Lemma detect_serial_device_run (iter : gset string → list string) (h : host)
    (e : environ) (r : remote) :
  detect_serial_device iter (boot h e r)
  = if acm_is_char_device h then
      after_control_uart h [printed line_usb_cdc_detected] ACM_CDC_DEV
        (control_uart iter "disable" (initial e r))
    else
      match device_tree_model h with
      | None =>
          (Failed raised_by_open,
           {| hw := h; balena := initial e r;
              trace := [printed line_usb_cdc_not_found; printed line_detecting_hardware] |})
      | Some text =>
          if contains "Raspberry Pi 3" (first_line text) then
            after_control_uart h
              [printed line_usb_cdc_not_found; printed line_detecting_hardware;
               printed (line_detected_model "Raspberry Pi 3");
               printed line_hardware_uart_supported]
              UART0_DEV (control_uart iter "enable" (initial e r))
          else
            (Done None,
             {| hw := h; balena := initial e r;
                trace := [printed line_usb_cdc_not_found; printed line_detecting_hardware;
                          printed (line_uart_not_supported (rstrip (first_line text)));
                          printed line_supported_hardware_not_found] |})
      end.
Proof.
  unfold detect_serial_device, after_control_uart.
  unfold mbind at 1. unfold P_bind at 1. unfold ask at 1. simpl.
  destruct (acm_is_char_device h).
  - unfold mbind, P_bind, say, do_step, call_control_uart, boot. simpl.
    by destruct (control_uart iter "disable" (initial e r)) as [[[]|ex] w].
  - unfold mbind at 1 2 3. unfold P_bind at 1 2 3. unfold say, do_step. simpl.
    rewrite detect_supported_hardware_run. simpl.
    destruct (device_tree_model h) as [text|]; [|done].
    destruct (contains "Raspberry Pi 3" (first_line text)); [|done]. simpl.
    unfold mbind, P_bind, say, do_step, call_control_uart. simpl.
    by destruct (control_uart iter "enable" (initial e r)) as [[[]|ex] w].
Qed.

(** X12: the device returned and the overlay agree.  When both scopes are
    read without an exception, a current set exists and its tokens have no
    double quote, backslash or control character, [detect_serial_device]
    either raises because the model file cannot be opened (no USB receiver;
    the service untouched), or returns [None] (no USB receiver, hardware not
    supported; no call on the service at all), or returns a device: the USB
    one exactly when the USB receiver is there, else UART0; and on the
    service it leaves, the current set of the next run has the overlay
    exactly when the device returned is UART0. *)
Theorem detect_serial_device_overlay (iter : gset string → list string) (h : host)
    (e : environ) (r : remote) (d a : option (gset string)) (id aid : option string)
    (device_overlay_exists : bool) (S : gset string) :
  iteration_order iter →
  find_dtoverlay_config (device_vars r) = Return (d, id) →
  find_dtoverlay_config (application_vars r) = Return (a, aid) →
  current_overlays d a = (device_overlay_exists, Some S) →
  (∀ tok, tok ∈ S → is_plain tok = true) →
  let run := detect_serial_device iter (boot h e r) in
  match run.1 with
  | Failed ex =>
      ex = raised_by_open ∧ acm_is_char_device h = false
      ∧ device_tree_model h = None ∧ balena run.2 = initial e r
  | Done None => acm_is_char_device h = false ∧ balena run.2 = initial e r
  | Done (Some dev) =>
      dev = (if acm_is_char_device h then ACM_CDC_DEV else UART0_DEV)
      ∧ ∃ (d' : option (gset string)) (id' : option string) (exists' : bool)
          (cur' : gset string),
          find_dtoverlay_config (device_vars (cloud (balena run.2))) = Return (d', id')
          ∧ application_vars (cloud (balena run.2)) = application_vars r
          ∧ current_overlays d' a = (exists', Some cur')
          ∧ (UART_OVERLAY ∈ cur' ↔ dev = UART0_DEV)
  end.
Proof.
  intros Hiter Hd Ha Hcur Hplain. simpl. rewrite detect_serial_device_run.
  destruct (acm_is_char_device h).
  - destruct (control_uart_effect iter "disable" e r d a id aid device_overlay_exists S)
      as (w' & d' & id' & ex' & cur' & Hrun & Hd' & Ha' & Hcur' & Hin & _);
      [done|apply disable_valid|done..|].
    unfold after_control_uart. rewrite Hrun. simpl. split; [done|].
    exists d', id', ex', cur'. repeat split; try done. by intros ?%Hin.
  - destruct (device_tree_model h) as [text|]; [|done].
    destruct (contains "Raspberry Pi 3" (first_line text)); [|done].
    destruct (control_uart_effect iter "enable" e r d a id aid device_overlay_exists S)
      as (w' & d' & id' & ex' & cur' & Hrun & Hd' & Ha' & Hcur' & Hin & _);
      [done|apply enable_valid|done..|].
    unfold after_control_uart. rewrite Hrun. simpl. split; [done|].
    exists d', id', ex', cur'. repeat split; try done. intros _. by apply Hin.
Qed.

Lemma detect_serial_device_overlay_witness :
  let run := detect_serial_device elements (boot host_pi3 example_env remote_fleet_only) in
  match run.1 with
  | Failed ex =>
      ex = raised_by_open ∧ acm_is_char_device host_pi3 = false
      ∧ device_tree_model host_pi3 = None ∧ balena run.2 = initial example_env remote_fleet_only
  | Done None =>
      acm_is_char_device host_pi3 = false ∧ balena run.2 = initial example_env remote_fleet_only
  | Done (Some dev) =>
      dev = (if acm_is_char_device host_pi3 then ACM_CDC_DEV else UART0_DEV)
      ∧ ∃ (d' : option (gset string)) (id' : option string) (exists' : bool)
          (cur' : gset string),
          find_dtoverlay_config (device_vars (cloud (balena run.2))) = Return (d', id')
          ∧ application_vars (cloud (balena run.2)) = application_vars remote_fleet_only
          ∧ current_overlays d' (Some {[ "vc4-kms-v3d" ]}) = (exists', Some cur')
          ∧ (UART_OVERLAY ∈ cur' ↔ dev = UART0_DEV)
  end.
Proof.
  apply (detect_serial_device_overlay elements host_pi3 example_env remote_fleet_only
           None (Some {[ "vc4-kms-v3d" ]}) None (Some "2") false {[ "vc4-kms-v3d" ]}).
  - apply elements_iteration_order.
  - reflexivity.
  - reflexivity.
  - reflexivity.
  - intros tok Htok. by apply elem_of_singleton in Htok as ->.
Defined.

(** The body under [__main__] from the start of the program, by what
    [detect_serial_device] gives. *)
Lemma main_run (iter : gset string → list string) (h : host) (e : environ)
    (r : remote) :
  main iter (boot h e r) = main_from (detect_serial_device iter (boot h e r)).
Proof.
  unfold main, detect_or_default, main_from, then_steps.
  unfold mbind at 1. unfold P_bind at 1.
  destruct (detect_serial_device iter (boot h e r)) as [[[dev|]|ex] m].
  - destruct (decide (dev ≠ ACM_CDC_DEV)) as [Hdev|Hdev].
    + unfold disable_dev_console, popen_shell_env, mbind, P_bind, say, do_step, ask, fail.
      simpl.
      destruct (DBUS_SYSTEM_BUS_ADDRESS (hw m)) as [address|] eqn:Hbus; simpl; [|done].
      rewrite Hbus. simpl. unfold gpsd_steps, console_steps, gpsd_launch.
      case_decide; simpl; by rewrite <-!app_assoc.
    + unfold mbind, P_bind, say, do_step, ask. simpl.
      unfold gpsd_steps, gpsd_launch.
      case_decide; simpl; by rewrite <-!app_assoc.
  - unfold mbind, P_bind, say, do_step. simpl. by rewrite <-!app_assoc.
  - case_decide; [done|].
    unfold mbind, P_bind, say, do_step, ask. simpl.
    unfold gpsd_steps, gpsd_launch. case_decide; simpl; by rewrite <-!app_assoc.
Qed.

Lemma processes_gpsd_steps (h : host) (dev : string) :
  processes (gpsd_steps h dev) = [gpsd_launch dev].
Proof. unfold gpsd_steps. by case_decide. Qed.

Lemma processes_app (tr1 tr2 : list step) :
  processes (tr1 ++ tr2) = processes tr1 ++ processes tr2.
Proof.
  induction tr1 as [|s tr1 IH]; [done|]. simpl. destruct s; simpl; by rewrite ?IH.
Qed.

(** The processes of the body under [__main__], after those of the
    detection. *)
Lemma processes_main_from (detection : outcome (option string) * machine) :
  processes (trace (main_from detection).2)
  = processes (trace detection.2)
    ++ match detection.1 with
       | Failed ex =>
           if decide (ex = raised_by_control_uart Unmodelled) then []
           else [gpsd_launch ACM_CDC_DEV]
       | Done None => []
       | Done (Some dev) =>
           if decide (dev ≠ ACM_CDC_DEV) then
             match DBUS_SYSTEM_BUS_ADDRESS (hw detection.2) with
             | None => []
             | Some address =>
                 console_processes (hw detection.2) address ++ [gpsd_launch dev]
             end
           else [gpsd_launch dev]
       end.
Proof.
  destruct detection as [[[dev|]|ex] m]; unfold main_from, then_steps;
    cbn [fst snd].
  - case_decide.
    + destruct (DBUS_SYSTEM_BUS_ADDRESS (hw m)) as [address|]; cbn [snd trace].
      * by rewrite !processes_app, processes_gpsd_steps.
      * by rewrite processes_app.
    + cbn [snd trace]. by rewrite processes_app, processes_gpsd_steps.
  - cbn [snd trace]. by rewrite processes_app.
  - case_decide; cbn [snd trace]; [by rewrite app_nil_r|].
    by rewrite !processes_app, processes_gpsd_steps.
Qed.

Lemma main_from_outcome (detection : outcome (option string) * machine) :
  (main_from detection).1
  = match detection.1 with
    | Failed ex =>
        if decide (ex = raised_by_control_uart Unmodelled) then Failed ex else Done ()
    | Done None => Done ()
    | Done (Some dev) =>
        if decide (dev ≠ ACM_CDC_DEV) then
          match DBUS_SYSTEM_BUS_ADDRESS (hw detection.2) with
          | None => Failed raised_by_popen
          | Some _ => Done ()
          end
        else Done ()
    end.
Proof.
  destruct detection as [[[dev|]|ex] m]; unfold main_from; simpl;
    repeat case_decide; try done. by destruct (DBUS_SYSTEM_BUS_ADDRESS (hw m)).
Qed.

Lemma main_from_balena (detection : outcome (option string) * machine) :
  balena (main_from detection).2 = balena detection.2.
Proof.
  destruct detection as [[[dev|]|ex] m]; unfold main_from; simpl;
    repeat case_decide; try done. by destruct (DBUS_SYSTEM_BUS_ADDRESS (hw m)).
Qed.

(** X13: the processes the program starts.  Whatever the machine, the
    environment and the service are, the processes started by the body under
    [__main__] are, in order, one of: none; the daemon alone, on the USB
    device; or, with no USB receiver and the bus address set, the two
    [dbus-send] commands, [stty] on UART0 and then the daemon on UART0.  The
    daemon is started once at most, last, and on no other device. *)
Theorem main_processes (iter : gset string → list string) (h : host) (e : environ)
    (r : remote) :
  let ps := processes (trace (main iter (boot h e r)).2) in
  ps = []
  ∨ ps = [gpsd_launch ACM_CDC_DEV]
  ∨ (acm_is_char_device h = false
     ∧ ∃ address, DBUS_SYSTEM_BUS_ADDRESS h = Some address
                  ∧ ps = console_processes h address ++ [gpsd_launch UART0_DEV]).
Proof.
  simpl. rewrite main_run, processes_main_from, detect_serial_device_run.
  unfold after_control_uart.
  destruct (acm_is_char_device h).
  - destruct (control_uart iter "disable" (initial e r)) as [[[]|ex] w]; simpl.
    + by right; left.
    + case_decide; [by left|by right; left].
  - destruct (device_tree_model h) as [text|]; simpl.
    + destruct (contains "Raspberry Pi 3" (first_line text)); [|by left].
      destruct (control_uart iter "enable" (initial e r)) as [[[]|ex] w]; simpl.
      * destruct (DBUS_SYSTEM_BUS_ADDRESS h) as [address|]; simpl; [|by left].
        right. right. split; [done|]. by exists address.
      * case_decide; [by left|by right; left].
    + by right; left.
Qed.

(** X14: with no overlay variable, the daemon goes to the USB device.  When
    neither scope has an overlay variable and there is a USB receiver, or no
    USB receiver and supported hardware, the body under [__main__] returns
    after it has started one process, the daemon on /dev/ttyACM0, and the
    service is as it was: with supported hardware and no USB receiver, the
    [TypeError] of [control_uart] is caught at line 190 and UART0 is not
    used. *)
Theorem main_without_overlay (iter : gset string → list string) (h : host)
    (e : environ) (r : remote) :
  no_dtoverlay (device_vars r) → no_dtoverlay (application_vars r) →
  (acm_is_char_device h = true
   ∨ ∃ text, device_tree_model h = Some text
             ∧ contains "Raspberry Pi 3" (first_line text) = true) →
  let run := main iter (boot h e r) in
  run.1 = Done ()
  ∧ processes (trace run.2) = [gpsd_launch ACM_CDC_DEV]
  ∧ cloud (balena run.2) = r.
Proof.
  intros Hd Ha Hhw. simpl.
  rewrite main_run, processes_main_from, main_from_outcome, main_from_balena,
    detect_serial_device_run.
  unfold after_control_uart.
  assert (∀ control, control ∈ ["enable"; "disable"] →
          control_uart iter control (initial e r)
          = (Raise TypeError,
             {| env := e; cloud := r; calls := reads e;
                stdout := [msg_device_dt_overlay None; msg_fleet_dt_overlay None] |}))
    as Hrun.
  { intros control Hc. rewrite control_uart_run by done.
    by rewrite (find_no_match _ Hd), (find_no_match _ Ha). }
  destruct (acm_is_char_device h).
  - by rewrite Hrun by apply disable_valid.
  - destruct Hhw as [[=]|(text & -> & ->)].
    by rewrite Hrun by apply enable_valid.
Qed.

Lemma main_without_overlay_witness :
  let run := main elements (boot host_pi3 example_env remote_without_overlay) in
  run.1 = Done ()
  ∧ processes (trace run.2) = [gpsd_launch ACM_CDC_DEV]
  ∧ cloud (balena run.2) = remote_without_overlay.
Proof.
  apply (main_without_overlay elements host_pi3 example_env remote_without_overlay).
  - by repeat constructor.
  - by repeat constructor.
  - right. eexists. split; reflexivity.
Defined.

(** X15: the bus address not set.  With no USB receiver, supported hardware
    and [DBUS_SYSTEM_BUS_ADDRESS] not set, when [control_uart] returns, the
    body under [__main__] ends in the [TypeError] of the first [Popen] of
    [disable_dev_console]: no process is started, the daemon neither, and
    the service keeps what the enable did to it. *)
Theorem main_without_bus_address (iter : gset string → list string) (h : host)
    (e : environ) (r : remote) (text : string) :
  acm_is_char_device h = false →
  device_tree_model h = Some text →
  contains "Raspberry Pi 3" (first_line text) = true →
  DBUS_SYSTEM_BUS_ADDRESS h = None →
  (control_uart iter "enable" (initial e r)).1 = Return () →
  let run := main iter (boot h e r) in
  run.1 = Failed raised_by_popen
  ∧ processes (trace run.2) = []
  ∧ balena run.2 = (control_uart iter "enable" (initial e r)).2.
Proof.
  intros Hacm Htext Hsup Hbus Hrun. simpl.
  rewrite main_run, processes_main_from, main_from_outcome, main_from_balena,
    detect_serial_device_run, Hacm, Htext, Hsup.
  unfold after_control_uart. rewrite Hrun. simpl. by rewrite Hbus.
Qed.

Lemma main_without_bus_address_witness :
  let run := main elements (boot host_pi3_no_dbus example_env remote_fleet_only) in
  run.1 = Failed raised_by_popen
  ∧ processes (trace run.2) = []
  ∧ balena run.2
    = (control_uart elements "enable" (initial example_env remote_fleet_only)).2.
Proof.
  apply (main_without_bus_address elements host_pi3_no_dbus example_env remote_fleet_only
           ("Raspberry Pi 3 Model B Plus Rev 1.3" +:+ String "000"%char EmptyString));
    reflexivity.
Defined.

(** X16: nothing to attach to.  With no USB receiver and a model file whose
    first line does not name a Raspberry Pi 3, the body under [__main__]
    makes no call on the service, starts no process, waits ten seconds and
    quits. *)
Theorem main_unsupported (iter : gset string → list string) (h : host) (e : environ)
    (r : remote) (text : string) :
  acm_is_char_device h = false →
  device_tree_model h = Some text →
  contains "Raspberry Pi 3" (first_line text) = false →
  main iter (boot h e r)
  = (Done (),
     {| hw := h; balena := initial e r;
        trace := [printed line_usb_cdc_not_found; printed line_detecting_hardware;
                  printed (line_uart_not_supported (rstrip (first_line text)));
                  printed line_supported_hardware_not_found;
                  printed line_exiting; sleep 10; quit] |}).
Proof.
  intros Hacm Htext Hsup. by rewrite main_run, detect_serial_device_run, Hacm, Htext, Hsup.
Qed.

Lemma main_unsupported_witness :
  main elements
    (boot {| acm_is_char_device := false;
             device_tree_model := Some "Raspberry Pi 4 Model B Rev 1.4";
             GPS_CUSTOM_BAUD := None; DBUS_SYSTEM_BUS_ADDRESS := None;
             gpsd_return_code := 0 |} example_env remote_with_other)
  = (Done (),
     {| hw := {| acm_is_char_device := false;
                 device_tree_model := Some "Raspberry Pi 4 Model B Rev 1.4";
                 GPS_CUSTOM_BAUD := None; DBUS_SYSTEM_BUS_ADDRESS := None;
                 gpsd_return_code := 0 |};
        balena := initial example_env remote_with_other;
        trace := [printed line_usb_cdc_not_found; printed line_detecting_hardware;
                  printed (line_uart_not_supported
                             (rstrip (first_line "Raspberry Pi 4 Model B Rev 1.4")));
                  printed line_supported_hardware_not_found;
                  printed line_exiting; sleep 10; quit] |}).
Proof.
  apply (main_unsupported elements _ example_env remote_with_other
           "Raspberry Pi 4 Model B Rev 1.4"); reflexivity.
Defined.

(** X17: with a USB receiver, the daemon goes to the USB device.  When
    /dev/ttyACM0 is a character device, the body under [__main__] returns
    after it has started one process, the daemon on /dev/ttyACM0, whether
    [control_uart] returned or raised (the exception is caught at line 190);
    the model file is not read and the console is left alone. *)
Theorem main_with_usb (iter : gset string → list string) (h : host) (e : environ)
    (r : remote) :
  acm_is_char_device h = true →
  (control_uart iter "disable" (initial e r)).1 ≠ Raise Unmodelled →
  let run := main iter (boot h e r) in
  run.1 = Done ()
  ∧ processes (trace run.2) = [gpsd_launch ACM_CDC_DEV]
  ∧ balena run.2 = (control_uart iter "disable" (initial e r)).2.
Proof.
  intros Hacm Hmodel. simpl.
  rewrite main_run, processes_main_from, main_from_outcome, main_from_balena,
    detect_serial_device_run, Hacm.
  unfold after_control_uart.
  destruct (control_uart iter "disable" (initial e r)) as [[[]|ex] w]; simpl in *;
    [done|].
  assert (raised_by_control_uart ex ≠ raised_by_control_uart Unmodelled) as Hex
    by (intros [= ->]; by apply Hmodel).
  by rewrite !decide_False by done.
Qed.

Lemma main_with_usb_witness :
  let run := main elements
               (boot {| acm_is_char_device := true; device_tree_model := None;
                        GPS_CUSTOM_BAUD := None; DBUS_SYSTEM_BUS_ADDRESS := None;
                        gpsd_return_code := 0 |} example_env remote_without_overlay) in
  run.1 = Done ()
  ∧ processes (trace run.2) = [gpsd_launch ACM_CDC_DEV]
  ∧ balena run.2
    = (control_uart elements "disable" (initial example_env remote_without_overlay)).2.
Proof.
  apply (main_with_usb elements _ example_env remote_without_overlay); [reflexivity|].
  intros [=].
Defined.
